(** * httpclient: a file-system cache in front of an HTTP client

    A shallow embedding of [httpclient.go] and the properties of its key
    derivation, freshness policy and fetch orchestration.

    Go values are modelled as follows.
    - [string] is a sequence of bytes ([String.string]);
    - [int], [int64] are [Z], with the 64-bit wrap-around written out where
      the code does arithmetic;
    - [http.Header] is a finite map from canonical header names to value
      lists ([gmap string (list string)]); a nil header behaves like the
      empty map for every operation the code performs on it;
    - a [(value, error)] result is a [result]; a pointer that may be nil is
      an [option];
    - the mutable world around a [Store] (file system, the set of hosts
      already seen, the requests handed to the transport, the clock) is
      threaded explicitly as a [World]. *)

From Stdlib Require Import ZArith Ascii String List Lia Bool.
From Stdlib Require Import DecimalString DecimalZ DecimalPos DecimalN Decimal.
From stdpp Require Import base decidable option list gmap strings.

Local Open Scope Z_scope.

(** ** Strings: the functions of Go's [strings] package the source calls *)

Module strings.

Definition sep : ascii := "/"%char.

Definition isUpper (c : ascii) : bool :=
  ((65 <=? N_of_ascii c) && (N_of_ascii c <=? 90))%N.

Definition isLower (c : ascii) : bool :=
  ((97 <=? N_of_ascii c) && (N_of_ascii c <=? 122))%N.

Definition lowerByte (c : ascii) : ascii :=
  if isUpper c then ascii_of_N (N_of_ascii c + 32) else c.

Definition upperByte (c : ascii) : ascii :=
  if isLower c then ascii_of_N (N_of_ascii c - 32) else c.

(** [strings.ToLower] on its byte-wise path, the one Go takes for ASCII
    input; bytes outside 'A'..'Z' are kept. (For input with bytes above
    127 Go maps runes through [unicode.ToLower]; that table is not
    modelled, so the statement that compares lower-cased queries, C4,
    speaks of ASCII input.) *)
Fixpoint ToLower (s : string) : string :=
  match s with
  | EmptyString => EmptyString
  | String c s' => String (lowerByte c) (ToLower s')
  end.

(** [strings.ReplaceAll(s, old, new)] for a one-byte [old], the only way
    the source calls it. *)
Fixpoint ReplaceAll (s : string) (old : ascii) (new : string) : string :=
  match s with
  | EmptyString => EmptyString
  | String c s' =>
      if Ascii.eqb c old then new +:+ ReplaceAll s' old new
      else String c (ReplaceAll s' old new)
  end.

Fixpoint containsByte (c : ascii) (s : string) : bool :=
  match s with
  | EmptyString => false
  | String d s' => Ascii.eqb c d || containsByte c s'
  end.

(** [strings.TrimLeft(s, cutset)]: drops every leading byte that occurs in
    [cutset]. *)
Fixpoint TrimLeft (s cutset : string) : string :=
  match s with
  | EmptyString => EmptyString
  | String c s' => if containsByte c cutset then TrimLeft s' cutset else s
  end.

(** [strings.TrimPrefix(s, prefix)] for a one-byte prefix: drops at most
    one leading byte. *)
Definition TrimPrefix (s : string) (prefix : ascii) : string :=
  match s with
  | String c s' => if Ascii.eqb c prefix then s' else s
  | EmptyString => EmptyString
  end.

(** Whether every byte is below 128. *)
Fixpoint isASCII (s : string) : bool :=
  match s with
  | EmptyString => true
  | String c s' => (N_of_ascii c <? 128)%N && isASCII s'
  end.

(** [strings.Split(s, "/")]: the pieces between separators; never empty. *)
Fixpoint Split (s : string) : list string :=
  match s with
  | EmptyString => [EmptyString]
  | String c s' =>
      if Ascii.eqb c sep then EmptyString :: Split s'
      else match Split s' with
           | h :: t => String c h :: t
           | [] => [String c EmptyString]
           end
  end.

End strings.

(** ** Paths: [path/filepath] on a Unix system *)

Module filepath.

Import strings.

(** One round of the loop of [filepath.Clean], on a whole path element
    instead of byte by byte. [out] holds the elements written so far, last
    one first. Empty and "." elements are skipped; ".." removes the last
    real element, is dropped at the root of a rooted path, and is kept at
    the front of a relative one. *)
Definition cleanStep (rooted : bool) (out : list string) (elem : string)
  : list string :=
  if decide (elem = "") then out
  else if decide (elem = ".") then out
  else if decide (elem = "..") then
    match out with
    | top :: rest => if decide (top = "..") then elem :: out else rest
    | [] => if rooted then [] else [elem]
    end
  else elem :: out.

(** An element that [Clean] copies: without separator, and neither
    empty nor "." nor "..". *)
Definition realElem (elem : string) : Prop :=
  containsByte sep elem = false /\ elem <> "" /\ elem <> "." /\ elem <> "..".

Definition isRooted (path : string) : bool :=
  match path with
  | String c _ => Ascii.eqb c sep
  | EmptyString => false
  end.

Definition render (rooted : bool) (out : list string) : string :=
  if rooted then "/" +:+ String.concat "/" (rev out)
  else match out with
       | [] => "."
       | _ => String.concat "/" (rev out)
       end.

(** [filepath.Clean]. *)
Definition Clean (path : string) : string :=
  if decide (path = "") then "."
  else
    let rooted := isRooted path in
    render rooted (fold_left (cleanStep rooted) (Split path) []).

Fixpoint dropEmpty (elem : list string) : list string :=
  match elem with
  | [] => []
  | e :: rest => if decide (e = "") then dropEmpty rest else elem
  end.

(** [filepath.Join]: the elements from the first non-empty one on, joined
    by the separator and cleaned; the empty string if all are empty. *)
Definition Join (elem : list string) : string :=
  match dropEmpty elem with
  | [] => ""
  | es => Clean (String.concat "/" es)
  end.

(** The part of [path] up to and including its last separator. *)
Fixpoint uptoLastSep (path : string) : string :=
  match path with
  | EmptyString => EmptyString
  | String c rest =>
      if containsByte sep path then String c (uptoLastSep rest)
      else EmptyString
  end.

(** [filepath.Dir]. *)
Definition Dir (path : string) : string := Clean (uptoLastSep path).

End filepath.

(** ** The key deriver *)

Module url.

(** The fields of [url.URL] the source reads. *)
Record URL := mkURL {
  Host : string;
  Path : string;
  RawQuery : string
}.

End url.

Definition fsKey (fileSystemRoot : string) (u : url.URL) : string :=
  let cleaned_params := strings.ReplaceAll (url.RawQuery u) "/" "-" in
  let noLeadingSlash := strings.TrimLeft (url.Path u) "/" in
  let cleaned_path := strings.ReplaceAll noLeadingSlash "/" "-" in
  filepath.Join [fileSystemRoot; url.Host u;
                 strings.ToLower (cleaned_path +:+ "?" +:+ cleaned_params +:+ ".gz")].

(** The key as the specification words it: a leading separator is
    stripped from the path, the separators left in path and query become
    hyphens, the segment [<path>?<query>.gz] is lower-cased and joined to
    root and host. *)
Definition spec_segment (u : url.URL) : string :=
  let cleaned_path := strings.ReplaceAll (strings.TrimPrefix (url.Path u) "/") "/" "-" in
  let cleaned_query := strings.ReplaceAll (url.RawQuery u) "/" "-" in
  strings.ToLower (cleaned_path +:+ "?" +:+ cleaned_query +:+ ".gz").

Definition spec_deriveKey (root : string) (u : url.URL) : string :=
  filepath.Join [root; url.Host u; spec_segment u].

(** The same with every leading separator stripped, written on the pieces
    between separators: the pieces of the path after its leading
    separators, and those of the query, are joined by hyphens, and each
    side is lower-cased on its own. *)
Fixpoint stripLeadingSeps (path : string) : string :=
  match path with
  | String "/" rest => stripLeadingSeps rest
  | _ => path
  end.

Definition hyphenate (s : string) : string :=
  String.concat "-" (strings.Split s).

Definition segment (u : url.URL) : string :=
  strings.ToLower (hyphenate (stripLeadingSeps (url.Path u)))
  +:+ "?" +:+ strings.ToLower (hyphenate (url.RawQuery u)) +:+ ".gz".

(** ** Errors and results *)

Inductive NumErrorKind := ErrSyntax | ErrRange.

(** Go [error] values, by the way they are built. *)
Inductive error :=
| errorString (msg : string)                  (* errors.New, fmt.Errorf *)
| wrapError (msg : string) (err : error)      (* fmt.Errorf with %w *)
| NumError (func num : string) (kind : NumErrorKind). (* strconv *)

(** A Go [(value, error)] result with a nil value on error. *)
Inductive result (A : Type) :=
| Ok (a : A)
| Err (e : error).
Arguments Ok {A} a.
Arguments Err {A} e.

#[global] Instance NumErrorKind_eq_dec : EqDecision NumErrorKind.
Proof. solve_decision. Defined.

#[global] Instance error_eq_dec : EqDecision error.
Proof. solve_decision. Defined.

(** What a call does: it returns, or it panics (nil dereference). *)
Inductive outcome (A : Type) :=
| Returns (a : A)
| Panics.
Arguments Returns {A} a.
Arguments Panics {A}.

(** ** Machine integers *)

Definition minInt64 : Z := - 2 ^ 63.
Definition maxInt64 : Z := 2 ^ 63 - 1.

(** Two's-complement wrap-around of a 64-bit signed result. *)
Definition wrap64 (z : Z) : Z := (z + 2 ^ 63) mod 2 ^ 64 - 2 ^ 63.

(** ** [strconv] and [fmt] *)

Module strconv.

(** The value of a non-empty string of decimal digits. *)
Definition parseDigits (s : string) : option Z :=
  match NilEmpty.uint_of_string s with
  | Some Nil => None
  | Some d => Some (Z.of_uint d)
  | None => None
  end.

(** The sign that may lead a number, and what follows it. *)
Definition splitSign (s : string) : bool * string :=
  match s with
  | String "+" rest => (false, rest)
  | String "-" rest => (true, rest)
  | _ => (false, s)
  end.

(** [strconv.ParseInt(s, 10, 64)]: an optional sign, then one or more
    digits, the value within the 64-bit range. *)
Definition ParseInt (s : string) : result Z :=
  let '(neg, body) := splitSign s in
  match parseDigits body with
  | None => Err (NumError "ParseInt" s ErrSyntax)
  | Some un =>
      let n := if neg : bool then - un else un in
      if (minInt64 <=? n) && (n <=? maxInt64) then Ok n
      else Err (NumError "ParseInt" s ErrRange)
  end.

(** [strconv.Atoi]: the same language and range, [int] being 64 bits. *)
Definition Atoi (s : string) : result Z :=
  match ParseInt s with
  | Ok n => Ok n
  | Err (NumError _ num kind) => Err (NumError "Atoi" num kind)
  | Err e => Err e
  end.

(** [fmt.Sprintf("%d", n)]. *)
Definition FormatInt (n : Z) : string := NilZero.string_of_int (Z.to_int n).

End strconv.

(** ** [time] *)

Module time.

(** A wall-clock [time.Time]: seconds since 1 January of year 1 (an
    int64) and nanoseconds within the second. *)
Record Time := mkTime { sec : Z; nsec : Z }.

(** [time.Time{}], the zero time. *)
Definition zero : Time := mkTime 0 0.

Definition unixToInternal : Z := 62135596800.

(** [time.Unix(sec, 0)]. *)
Definition Unix (seconds : Z) : Time :=
  mkTime (wrap64 (seconds + unixToInternal)) 0.

(** [t.After(u)] for times without a monotonic reading on both sides. *)
Definition After (t u : Time) : bool :=
  (sec u <? sec t) || ((sec t =? sec u) && (nsec u <? nsec t)).

End time.

(** ** [net/http]: headers, requests, responses *)

Module http.

Import strings.

Definition isAlphaNum (c : ascii) : bool :=
  isUpper c || isLower c || ((48 <=? N_of_ascii c) && (N_of_ascii c <=? 57))%N.

Definition validHeaderFieldByte (c : ascii) : bool :=
  isAlphaNum c || containsByte c "!#$%&'*+-.^_`|~".

Fixpoint allValid (s : string) : bool :=
  match s with
  | EmptyString => true
  | String c s' => validHeaderFieldByte c && allValid s'
  end.

Fixpoint canonical (upper : bool) (s : string) : string :=
  match s with
  | EmptyString => EmptyString
  | String c s' =>
      let c' := if upper then upperByte c else lowerByte c in
      String c' (canonical (Ascii.eqb c' "-") s')
  end.

(** [textproto.CanonicalMIMEHeaderKey]: first letter and letters after a
    hyphen in upper case, the others in lower case; a key with a byte that
    is not a token byte is left as it is. *)
Definition CanonicalMIMEHeaderKey (s : string) : string :=
  if allValid s then canonical true s else s.

Definition Header_Get (h : gmap string (list string)) (key : string) : string :=
  match h !! CanonicalMIMEHeaderKey key with
  | Some (v :: _) => v
  | _ => ""
  end.

Definition Header_Set (h : gmap string (list string)) (key value : string)
  : gmap string (list string) :=
  <[CanonicalMIMEHeaderKey key := [value]]> h.

Record Request := mkRequest {
  Method : string;
  URL : url.URL;
  ReqHeader : gmap string (list string)
}.

Record Response := mkResponse {
  StatusCode : Z;
  Header : gmap string (list string);
  ContentLength : Z;
  Body : string
}.

Definition StatusNotModified : Z := 304.
Definition StatusUnauthorized : Z := 401.
Definition StatusForbidden : Z := 403.
Definition StatusInternalServerError : Z := 500.
Definition StatusBadGateway : Z := 502.
Definition StatusServiceUnavailable : Z := 503.
Definition StatusGatewayTimeout : Z := 504.

End http.

Import http.

(** ** The collaborators: file system, compression, wire format, clock

    The store reaches them through Go's standard library. Their internals
    are outside the repository; the store only depends on the results of
    these calls, so they are the operations of a class. [Bytes] is the
    content of a byte slice, which the store passes on and never inspects;
    [FS] is the state of the file system; [GzipReader] is a [*gzip.Reader]
    that was opened successfully. *)

Class Platform := {
  Bytes : Type;
  FS : Type;
  GzipReader : Type;
  (** [os.ReadFile], [os.WriteFile(key, data, 0640)], [os.MkdirAll(dir, 0750)] *)
  os_ReadFile : string -> FS -> result Bytes;
  os_WriteFile : string -> Bytes -> FS -> option error * FS;
  os_MkdirAll : string -> FS -> option error * FS;
  (** [gzip.NewReader(bytes.NewReader(f))] *)
  gzip_NewReader : Bytes -> result GzipReader;
  (** [io.ReadAll] and [Close] on an open reader *)
  io_ReadAll : GzipReader -> result Bytes;
  gzip_Reader_Close : GzipReader -> option error;
  (** [gzipWriter.Write(dump)] then [gzipWriter.Close()] into a buffer,
      giving [buffer.Bytes()] *)
  gzip_Writer_Write_Close : Bytes -> result Bytes;
  (** [http.ReadResponse(bufio.NewReader(gzipReader), r)] *)
  http_ReadResponse : GzipReader -> Request -> result Response;
  (** [httputil.DumpResponse(rsp, true)] *)
  httputil_DumpResponse : Response -> result Bytes;
  (** [time.Now().Unix()] at the n-th reading of the clock *)
  time_Now_Unix : nat -> Z
}.

(** The [Client] interface. [Do] is given the number of requests the
    transport has received before, so that a transport may answer
    differently from call to call. A nil response is [None]. *)
Record Client := mkClient {
  Do : nat -> Request -> option Response * option error
}.

Definition _timestampKey : string := "X-Elucidate-Time".
Definition _versionKey : string := "X-Elucidate-Version".
Definition _etagKey : string := "Etag".
Definition _ifNoneMatchKey : string := "If-None-Match".
Definition _minimumContentLength : Z := 10.
Definition _defaultAllowedErrors : Z := 3.

(** The configuration fields of [Store]. Its one mutable field,
    [seenHosts], lives in the [World]. *)
Record Store := mkStore {
  fileSystemRoot : string;
  client : Client;
  maxErrorVersion : Z;
  fetchTimestampKey : string;
  fetchVersionKey : string
}.

Definition Option := Store -> Store.

Definition WithClient (c : Client) : Option := fun s =>
  mkStore (fileSystemRoot s) c (maxErrorVersion s) (fetchTimestampKey s) (fetchVersionKey s).

Definition WithMaxErrorVersion (n : Z) : Option := fun s =>
  mkStore (fileSystemRoot s) (client s) n (fetchTimestampKey s) (fetchVersionKey s).

Definition WithFetchTimestampKey (key : string) : Option := fun s =>
  mkStore (fileSystemRoot s) (client s) (maxErrorVersion s) key (fetchVersionKey s).

Definition WithFetchVersionKey (key : string) : Option := fun s =>
  mkStore (fileSystemRoot s) (client s) (maxErrorVersion s) (fetchTimestampKey s) key.

(** [NewStore]; [defaultClient] stands for [http.DefaultClient]. *)
Definition NewStore (defaultClient : Client) (fileSystemRoot : string)
  (opts : list Option) : Store :=
  fold_left (fun s opt => opt s) opts
    (mkStore fileSystemRoot defaultClient _defaultAllowedErrors
       _timestampKey _versionKey).

(** ** The freshness policy *)

Definition getWriteTimestamp (s : Store) (rsp : Response) : result time.Time :=
  let timestamp := Header_Get (Header rsp) (fetchTimestampKey s) in
  if decide (timestamp <> "") then
    match strconv.ParseInt timestamp with
    | Err err => Err err
    | Ok seconds => Ok (time.Unix seconds)
    end
  else Err (errorString "failed to find timestamp").

Definition getVersion (s : Store) (rsp : Response) : result Z :=
  let version := Header_Get (Header rsp) (fetchVersionKey s) in
  if decide (version <> "") then strconv.Atoi version
  else Ok 1.

(** The statuses of the [case] in [shouldUseCachedValue]. *)
Definition isRetriedStatus (code : Z) : bool :=
  (code =? StatusForbidden) || (code =? StatusUnauthorized)
  || (code =? StatusInternalServerError) || (code =? StatusBadGateway)
  || (code =? StatusServiceUnavailable) || (code =? StatusGatewayTimeout).

Definition shouldUseCachedValue (s : Store) (rsp : Response)
  (lastModified : time.Time) : Z * bool :=
  if negb (ContentLength rsp =? -1) && (ContentLength rsp <? _minimumContentLength)
  then (0, false)
  else
    match getWriteTimestamp s rsp with
    | Err _ => (0, false)
    | Ok t =>
        match getVersion s rsp with
        | Err _ => (0, false)
        | Ok version =>
            if isRetriedStatus (StatusCode rsp) && (version <=? maxErrorVersion s)
            then (version, false)
            else if time.After t lastModified then (version, true)
            else (0, false)
        end
    end.

(** The stored response declares a content length below the minimum: the
    condition of line 202. *)
Definition declaresShortContent (rsp : Response) : bool :=
  negb (ContentLength rsp =? -1) && (ContentLength rsp <? _minimumContentLength).

(** ** The store *)

Section Store.

Context `{Platform}.

(** The state the store works on. [sent] lists the requests handed to the
    transport, latest first; [ticks] counts the readings of the clock. *)
Record World := mkWorld {
  fs : FS;
  seenHosts : gset string;
  sent : list Request;
  ticks : nat
}.

(** A [StoreFunc] is a closure; the two the source builds are the no-op
    and the one of [prepareForWriting], which captures [key] and [dump]. *)
Inductive StoreFunc :=
| NoOpStoreFunc
| writeStoreFunc (key : string) (dump : Bytes).

(** Calling a [StoreFunc]. *)
Definition callStoreFunc (f : StoreFunc) (w : World) : option error * World :=
  match f with
  | NoOpStoreFunc => (None, w)
  | writeStoreFunc key dump =>
      match gzip_Writer_Write_Close dump with
      | Err err => (Some err, w)
      | Ok buffer =>
          let '(err, fs') := os_WriteFile key buffer (fs w) in
          (err, mkWorld fs' (seenHosts w) (sent w) (ticks w))
      end
  end.

(** The four results of [CacheFetch]. *)
Record Fetched := mkFetched {
  f_rsp : option Response;
  f_cached : bool;
  f_storeFunc : StoreFunc;
  f_err : option error
}.

(** [readGZIPFile]: the reader is nil ([None]) whenever the error is not. *)
Definition readGZIPFile (key : string) (w : World) : result GzipReader :=
  match os_ReadFile key (fs w) with
  | Err err => Err err
  | Ok f => gzip_NewReader f
  end.

Definition readAndParseGZIPFile (key : string) (r : Request) (w : World)
  : result Response :=
  match readGZIPFile key w with
  | Err err => Err err
  | Ok gzipReader => http_ReadResponse gzipReader r
  end.

(** Lines 250 to 254 of [prepareForWriting]: the two metadata headers
    are set on the response. *)
Definition stampMetadata (s : Store) (now version : Z) (rsp : Response) : Response :=
  let h := Header_Set (Header rsp) (fetchTimestampKey s) (strconv.FormatInt now) in
  let h := Header_Set h (fetchVersionKey s) (strconv.FormatInt version) in
  mkResponse (StatusCode rsp) h (ContentLength rsp) (Body rsp).

(** [prepareForWriting]. It stamps [rsp] in place, so the stamped response
    is returned next to the result. *)
Definition prepareForWriting (s : Store) (key : string) (version : Z)
  (rsp : Response) (w : World) : World * Response * result StoreFunc :=
  let now := time_Now_Unix (ticks w) in
  let w := mkWorld (fs w) (seenHosts w) (sent w) (S (ticks w)) in
  let rsp := stampMetadata s now version rsp in
  match httputil_DumpResponse rsp with
  | Err err => (w, rsp, Err (wrapError "failed to dump response" err))
  | Ok dump => (w, rsp, Ok (writeStoreFunc key dump))
  end.

(** Lines 178 to 182 of [internalCacheFetch]: the request with a cloned
    header in which [If-None-Match] is set to [etag]. *)
Definition withIfNoneMatch (r : Request) (etag : string) : Request :=
  mkRequest (Method r) (URL r) (Header_Set (ReqHeader r) _ifNoneMatchKey etag).

(** Lines 183 to 198 of [internalCacheFetch]: the request to the transport
    and what follows, as a function of the three variables the cache
    lookup sets ([version], [etag], [cachedRsp]). *)
Definition fetchRemote (s : Store) (key : string) (r : Request)
  (version : Z) (etag : string) (cachedRsp : option Response) (w : World)
  : outcome (World * Fetched) :=
  let r := withIfNoneMatch r etag in
  let reply := Do (client s) (length (sent w)) r in
  let w := mkWorld (fs w) (seenHosts w) (r :: sent w) (ticks w) in
  match reply with
  | (rsp, Some err) => Returns (w, mkFetched rsp false NoOpStoreFunc (Some err))
  | (None, None) => Panics
  | (Some rsp, None) =>
      if StatusCode rsp =? StatusNotModified then
        Returns (w, mkFetched cachedRsp true NoOpStoreFunc None)
      else
        match prepareForWriting s key (wrap64 (version + 1)) rsp w with
        | (w, _, Err err) =>
            Returns (w, mkFetched None false NoOpStoreFunc
                          (Some (wrapError "failed to write fixture" err)))
        | (w, rsp, Ok finalStoreFunc) =>
            Returns (w, mkFetched (Some rsp) false finalStoreFunc None)
        end
  end.

(** Lines 157 to 163 of [internalCacheFetch]: the directory of the host
    is created the first time it is seen. *)
Definition ensureHostDir (hostDir : string) (w : World) : option error * World :=
  if decide (hostDir ∈ seenHosts w) then (None, w)
  else
    match os_MkdirAll hostDir (fs w) with
    | (Some err, fs') => (Some err, mkWorld fs' (seenHosts w) (sent w) (ticks w))
    | (None, fs') =>
        (None, mkWorld fs' ({[hostDir]} ∪ seenHosts w) (sent w) (ticks w))
    end.

Definition internalCacheFetch (s : Store) (r : Request)
  (lastModified : time.Time) (w : World) : outcome (World * Fetched) :=
  let key := fsKey (fileSystemRoot s) (URL r) in
  let hostDir := filepath.Dir key in
  match ensureHostDir hostDir w with
  | (Some err, w) => Returns (w, mkFetched None false NoOpStoreFunc (Some err))
  | (None, w) =>
      match readAndParseGZIPFile key r w with
      | Ok cachedRsp =>
          let '(storedVersion, ok) := shouldUseCachedValue s cachedRsp lastModified in
          if ok then Returns (w, mkFetched (Some cachedRsp) true NoOpStoreFunc None)
          else
            fetchRemote s key r storedVersion
              (Header_Get (Header cachedRsp) _etagKey) (Some cachedRsp) w
      | Err _ => fetchRemote s key r 0 "" None w
      end
  end.

(** [CacheFetch]; the context only carries cancellation, which is not
    modelled. *)
Definition CacheFetch (s : Store) (r : Request) (lastModified : time.Time)
  (w : World) : outcome (World * Fetched) :=
  internalCacheFetch s r lastModified w.

(** [CacheFetchAndStore]: response, cached flag and error. *)
Definition CacheFetchAndStore (s : Store) (r : Request)
  (lastModified : time.Time) (w : World)
  : outcome (World * (option Response * bool * option error)) :=
  match CacheFetch s r lastModified w with
  | Panics => Panics
  | Returns (w, f) =>
      match f_err f with
      | Some err => Returns (w, (f_rsp f, f_cached f, Some err))
      | None =>
          match callStoreFunc (f_storeFunc f) w with
          | (Some err, w) => Returns (w, (f_rsp f, f_cached f, Some err))
          | (None, w) => Returns (w, (f_rsp f, f_cached f, None))
          end
      end
  end.

(** [(s *Store) Do]. *)
Definition Store_Do (s : Store) (r : Request) (w : World)
  : outcome (World * (option Response * option error)) :=
  match CacheFetch s r time.zero w with
  | Panics => Panics
  | Returns (w, f) =>
      match f_err f with
      | Some err => Returns (w, (f_rsp f, Some err))
      | None =>
          match callStoreFunc (f_storeFunc f) w with
          | (Some err, w) => Returns (w, (f_rsp f, Some err))
          | (None, w) => Returns (w, (f_rsp f, None))
          end
      end
  end.

(** [RawCacheData]: data and error, either of which may be nil. After a
    failed [readGZIPFile] the reader is nil, and the first [Read] that
    [io.ReadAll] makes on a nil [*gzip.Reader] dereferences it. *)
Definition RawCacheData (s : Store) (u : url.URL) (w : World)
  : outcome (option Bytes * option error) :=
  let key := fsKey (fileSystemRoot s) u in
  let '(gzipReader, err) :=
    match readGZIPFile key w with
    | Ok gzipReader => (Some gzipReader, None)
    | Err err => (None, Some err)
    end in
  if bool_decide (err <> err) then Returns (None, err)
  else
    match gzipReader with
    | None => Panics
    | Some gzipReader =>
        match io_ReadAll gzipReader with
        | Err err => Returns (None, Some err)
        | Ok data =>
            match gzip_Reader_Close gzipReader with
            | Some err => Returns (None, Some err)
            | None => Returns (Some data, None)
            end
        end
    end.

(** [CacheFetchAndStore] once per cutoff, in order; the results in
    order. *)
Fixpoint fetchEach (s : Store) (r : Request) (cutoffs : list time.Time)
  (w : World) : outcome (World * list (option Response * bool * option error)) :=
  match cutoffs with
  | [] => Returns (w, [])
  | lastModified :: rest =>
      match CacheFetchAndStore s r lastModified w with
      | Panics => Panics
      | Returns (w, x) =>
          match fetchEach s r rest w with
          | Panics => Panics
          | Returns (w, xs) => Returns (w, x :: xs)
          end
      end
  end.

(** *** Assumptions on the collaborators, used where a statement follows
    an entry from its write to a later read *)

(** A file that was written is read back, and creating a directory does
    not change what a file reads as. *)
Definition FSKeepsFiles : Prop :=
  (forall key data files files',
      os_WriteFile key data files = (None, files') ->
      os_ReadFile key files' = Ok data)
  /\ (forall dir key files,
      os_ReadFile key (snd (os_MkdirAll dir files)) = os_ReadFile key files).

(** Directory creation and file writes succeed. *)
Definition FSAccepts : Prop :=
  (forall dir files, fst (os_MkdirAll dir files) = None)
  /\ (forall key data files, fst (os_WriteFile key data files) = None).

(** Compressing [dump] and reading the result back as a response, for
    request [r], gives a response with the status, the body and the two
    metadata headers of [rsp], which does not declare a content length
    below the minimum. *)
Definition ReadsBackAs (s : Store) (r : Request) (dump : Bytes)
  (rsp : Response) : Prop :=
  exists buffer gzipReader cachedRsp,
    gzip_Writer_Write_Close dump = Ok buffer
    /\ gzip_NewReader buffer = Ok gzipReader
    /\ http_ReadResponse gzipReader r = Ok cachedRsp
    /\ StatusCode cachedRsp = StatusCode rsp
    /\ Body cachedRsp = Body rsp
    /\ Header_Get (Header cachedRsp) (fetchTimestampKey s)
       = Header_Get (Header rsp) (fetchTimestampKey s)
    /\ Header_Get (Header cachedRsp) (fetchVersionKey s)
       = Header_Get (Header rsp) (fetchVersionKey s)
    /\ declaresShortContent cachedRsp = false.

(** The fetch is a miss that hands back a response stamped with
    [version], together with the pending write of its dump at the key. *)
Definition WritesVersion (s : Store) (r : Request) (lastModified : time.Time)
  (w : World) (version : Z) : Prop :=
  exists w' rsp dump,
    CacheFetch s r lastModified w
    = Returns (w', mkFetched (Some rsp) false
                     (writeStoreFunc (fsKey (fileSystemRoot s) (URL r)) dump) None)
    /\ Header_Get (Header rsp) (fetchVersionKey s) = strconv.FormatInt version
    /\ httputil_DumpResponse rsp = Ok dump.

(** The transport answers the next request, whatever it is, with a
    response that is not "not modified" and that can be dumped once it is
    stamped. *)
Definition TransportAnswers (s : Store) (w : World) : Prop :=
  forall req, exists rsp,
    Do (client s) (length (sent w)) req = (Some rsp, None)
    /\ StatusCode rsp <> StatusNotModified
    /\ forall now version, exists dump,
        httputil_DumpResponse (stampMetadata s now version rsp) = Ok dump.

(** The key of [r] holds no entry that can be read and parsed. *)
Definition NoEntry (s : Store) (r : Request) (w : World) : Prop :=
  exists e, readAndParseGZIPFile (fsKey (fileSystemRoot s) (URL r)) r w = Err e.

(** The key of [r] holds a usable entry with an error status, stamped
    with [version] by a clock after year 1, and its host was seen. *)
Definition ErrorEntry (s : Store) (r : Request) (w : World) (version : Z) : Prop :=
  filepath.Dir (fsKey (fileSystemRoot s) (URL r)) ∈ seenHosts w
  /\ exists cachedRsp now,
      readAndParseGZIPFile (fsKey (fileSystemRoot s) (URL r)) r w = Ok cachedRsp
      /\ declaresShortContent cachedRsp = false
      /\ isRetriedStatus (StatusCode cachedRsp) = true
      /\ getWriteTimestamp s cachedRsp = Ok (time.Unix now)
      /\ - time.unixToInternal < now <= maxInt64 - time.unixToInternal
      /\ getVersion s cachedRsp = Ok version.

(** The transport answers every request with one of the error statuses
    of the policy, in a response that, once stamped, can be dumped and
    reads back. *)
Definition TransportKeepsFailing (s : Store) (r : Request) : Prop :=
  forall n req, exists rsp,
    Do (client s) n req = (Some rsp, None)
    /\ isRetriedStatus (StatusCode rsp) = true
    /\ forall now version, exists dump,
        httputil_DumpResponse (stampMetadata s now version rsp) = Ok dump
        /\ ReadsBackAs s r dump (stampMetadata s now version rsp).

(** The clock shows a time after year 1 that [time.Unix] represents. *)
Definition ClockInRange : Prop :=
  forall n, - time.unixToInternal < time_Now_Unix n <= maxInt64 - time.unixToInternal.

End Store.

(** ** An in-memory platform and the transport of the test suite

    A symbolic stand-in for the collaborators, on which the store can be
    run: byte slices are terms, a file system is a finite map, and the wire
    format gives back the response that was dumped. *)

Module Mem.

Inductive MemBytes :=
| Wire (rsp : Response)        (* the dump of a response *)
| Gzip (data : MemBytes)       (* compressed data *)
| Raw (s : string).            (* any other bytes *)

(** What the wire form keeps of the content length: a length of 0 on a
    body that is not empty is unknown (-1), and a declared length has to
    be the length of the body. *)
Definition DumpResponse (rsp : Response) : result MemBytes :=
  let n := Z.of_nat (String.length (Body rsp)) in
  if ContentLength rsp <? 0 then
    Ok (Wire (mkResponse (StatusCode rsp) (Header rsp) (-1) (Body rsp)))
  else if (ContentLength rsp =? 0) && (0 <? n) then
    Ok (Wire (mkResponse (StatusCode rsp) (Header rsp) (-1) (Body rsp)))
  else if ContentLength rsp =? n then Ok (Wire rsp)
  else Err (errorString "http: ContentLength differs from Body length").

#[global] Instance platform : Platform := {|
  Bytes := MemBytes;
  FS := gmap string MemBytes;
  GzipReader := MemBytes;
  os_ReadFile key files :=
    match files !! key with
    | Some f => Ok f
    | None => Err (errorString "open: no such file or directory")
    end;
  os_WriteFile key data files := (None, <[key := data]> files);
  os_MkdirAll dir files := (None, files);
  gzip_NewReader f :=
    match f with
    | Gzip data => Ok data
    | _ => Err (errorString "gzip: invalid header")
    end;
  io_ReadAll data := Ok data;
  gzip_Reader_Close _ := None;
  gzip_Writer_Write_Close dump := Ok (Gzip dump);
  http_ReadResponse data _ :=
    match data with
    | Wire rsp => Ok rsp
    | _ => Err (errorString "malformed HTTP response")
    end;
  httputil_DumpResponse := DumpResponse;
  (** one second per reading from 14 November 2023 on, up to 2100 *)
  time_Now_Unix n := Z.min (1700000000 + Z.of_nat n) 4102444800
|}.

(** [dummyClient] of [httpclient_test.go]; its request counter is the
    length of [sent]. *)
Definition dummyClient (statusCode : Z) (body : string) : Client :=
  mkClient (fun _ _ => (Some (mkResponse statusCode ∅ 0 body), None)).

(** A transport that fails, and one that always gives the same reply. *)
Definition failingClient (err : error) : Client :=
  mkClient (fun _ _ => (None, Some err)).

Definition replyingClient (rsp : Response) : Client :=
  mkClient (fun _ _ => (Some rsp, None)).

Definition newWorld : World := mkWorld (∅ : gmap string MemBytes) ∅ [] 0.

(** [http.NewRequest(http.MethodGet, "http://" + host + path, nil)] *)
Definition getRequest (host path query : string) : Request :=
  mkRequest "GET" (url.mkURL host path query) ∅.

(** A cutoff of [time.Now()] taken after the n-th reading of the clock:
    the same second or later, and past its start. *)
Definition nowAfter (w : World) : time.Time :=
  time.mkTime (time.sec (time.Unix (time_Now_Unix (ticks w)))) 1.

(** Runs [CacheFetch] and calls the [StoreFunc], as each step of the tests
    does, returning the status, the cached flag and the new world. *)
Definition step (s : Store) (r : Request) (lastModified : World -> time.Time)
  (w : World) : option (Z * bool * nat * World) :=
  match CacheFetch s r (lastModified w) w with
  | Returns (w, mkFetched (Some rsp) cached f None) =>
      match callStoreFunc f w with
      | (None, w) => Some (StatusCode rsp, cached, length (sent w), w)
      | _ => None
      end
  | _ => None
  end.

(** A run of steps; the observations in order. *)
Fixpoint run (s : Store) (r : Request)
  (cutoffs : list (World -> time.Time)) (w : World) : list (Z * bool * nat) :=
  match cutoffs with
  | [] => []
  | c :: rest =>
      match step s r c w with
      | Some (code, cached, n, w) => (code, cached, n) :: run s r rest w
      | None => []
      end
  end.

(** The store, request and cutoffs of [TestStore]. *)
Definition testStore (statusCode : Z) : Store :=
  NewStore (dummyClient 200 "") "/tmp/store"
    [WithClient (dummyClient statusCode "hello, world"); WithMaxErrorVersion 2].

Definition testRequest : Request := getRequest "example.com" "" "".

Definition zeroCutoff : World -> time.Time := fun _ => time.zero.

(** The same store on a transport that fails. *)
Definition brokenStore (err : error) : Store :=
  WithClient (failingClient err) (testStore 200).

(** A stored response with the two metadata headers. *)
Definition entry (statusCode : Z) (timestamp version : string) : Response :=
  mkResponse statusCode
    (Header_Set (Header_Set ∅ _timestampKey timestamp) _versionKey version)
    (-1) "hello, world".

(** A world whose only file is [f], at the key of [testRequest], with the
    host directory already seen. *)
Definition worldWith (f : MemBytes) : World :=
  let key := fsKey "/tmp/store" (URL testRequest) in
  mkWorld ({[key := f]} : gmap string MemBytes) {[filepath.Dir key]} [] 0.

(** The version header of the response a fetch hands back. *)
Definition fetchedVersion (o : outcome (World * Fetched)) : option string :=
  match o with
  | Returns (_, f) =>
      match f_rsp f with
      | Some rsp => Some (Header_Get (Header rsp) _versionKey)
      | None => None
      end
  | Panics => None
  end.

End Mem.

(** ** Further assumptions and inputs *)

Section MoreAssumptions.

Context `{Platform}.

(** Writing a file leaves what the other files read as. *)
Definition FSWritesOnlyKey : Prop :=
  forall key key' data files,
    key <> key' ->
    os_ReadFile key' (snd (os_WriteFile key data files)) = os_ReadFile key' files.

(** What the gzip writer makes of [dump] opens as gzip, reads back as
    [dump] and closes without error. *)
Definition GzipReadsBack (dump : Bytes) : Prop :=
  exists buffer gzipReader,
    gzip_Writer_Write_Close dump = Ok buffer
    /\ gzip_NewReader buffer = Ok gzipReader
    /\ io_ReadAll gzipReader = Ok dump
    /\ gzip_Reader_Close gzipReader = None.

End MoreAssumptions.

(** An option that leaves [maxErrorVersion] alone: one of [WithClient],
    [WithFetchTimestampKey], [WithFetchVersionKey]. *)
Definition keepsMaxErrorVersion (opt : Option) : Prop :=
  (exists c, opt = WithClient c)
  \/ (exists key, opt = WithFetchTimestampKey key)
  \/ (exists key, opt = WithFetchVersionKey key).

(** One of the four options of the package. *)
Definition isOption (opt : Option) : Prop :=
  keepsMaxErrorVersion opt \/ exists n, opt = WithMaxErrorVersion n.

(** The in-memory platform on a file system that refuses every change. *)
Module MemReadOnly.

Definition readOnly : error := errorString "read-only file system".

Definition platform : Platform := {|
  Bytes := Mem.MemBytes;
  FS := gmap string Mem.MemBytes;
  GzipReader := Mem.MemBytes;
  os_ReadFile := @os_ReadFile Mem.platform;
  os_WriteFile key data files := (Some readOnly, files);
  os_MkdirAll dir files := (Some readOnly, files);
  gzip_NewReader := @gzip_NewReader Mem.platform;
  io_ReadAll := @io_ReadAll Mem.platform;
  gzip_Reader_Close := @gzip_Reader_Close Mem.platform;
  gzip_Writer_Write_Close := @gzip_Writer_Write_Close Mem.platform;
  http_ReadResponse := @http_ReadResponse Mem.platform;
  httputil_DumpResponse := Mem.DumpResponse;
  time_Now_Unix := @time_Now_Unix Mem.platform
|}.

(** A world with no file in which the host of [Mem.testRequest] was seen
    (its directory exists). *)
Definition seenWorld : @World platform :=
  @mkWorld platform (∅ : gmap string Mem.MemBytes)
    {[filepath.Dir (fsKey "/tmp/store" (URL Mem.testRequest))]} [] 0.

Definition newWorld : @World platform :=
  @mkWorld platform (∅ : gmap string Mem.MemBytes) ∅ [] 0.

End MemReadOnly.

(** * Properties *)

(** ** Strings and paths *)

Section StringFacts.

Import strings.

Lemma app_cons c s t : String c s +:+ t = String c (s +:+ t).
Proof. reflexivity. Qed.

Lemma app_nil_l s : "" +:+ s = s.
Proof. reflexivity. Qed.

Lemma app_nil_r s : s +:+ "" = s.
Proof. induction s as [|c s IH]; [reflexivity|]. rewrite app_cons, IH. reflexivity. Qed.

Lemma app_assoc s t u : (s +:+ t) +:+ u = s +:+ t +:+ u.
Proof.
  induction s as [|c s IH]; [reflexivity|].
  rewrite !app_cons, IH. reflexivity.
Qed.

Lemma app_length s t :
  String.length (s +:+ t) = (String.length s + String.length t)%nat.
Proof.
  induction s as [|c s IH]; [reflexivity|].
  rewrite app_cons. simpl. rewrite IH. reflexivity.
Qed.

Lemma ToLower_app s t : ToLower (s +:+ t) = ToLower s +:+ ToLower t.
Proof.
  induction s as [|c s IH]; [reflexivity|].
  rewrite app_cons. simpl. rewrite IH, app_cons. reflexivity.
Qed.

Lemma ToLower_length s : String.length (ToLower s) = String.length s.
Proof. induction s as [|c s IH]; simpl; congruence. Qed.

Lemma lowerByte_sep c : Ascii.eqb sep (lowerByte c) = Ascii.eqb sep c.
Proof. destruct c as [[] [] [] [] [] [] [] []]; reflexivity. Qed.

Lemma containsByte_app c s t :
  containsByte c (s +:+ t) = containsByte c s || containsByte c t.
Proof.
  induction s as [|d s IH]; [reflexivity|].
  rewrite app_cons. simpl. rewrite IH, orb_assoc. reflexivity.
Qed.

Lemma ToLower_sep s : containsByte sep (ToLower s) = containsByte sep s.
Proof.
  induction s as [|c s IH]; [reflexivity|].
  cbn [ToLower containsByte]. rewrite lowerByte_sep, IH. reflexivity.
Qed.

Lemma ReplaceAll_sep s : containsByte sep (ReplaceAll s "/" "-") = false.
Proof.
  induction s as [|c s IH]; [reflexivity|].
  cbn [ReplaceAll]. destruct (Ascii.eqb c "/") eqn:E.
  - rewrite containsByte_app, IH. reflexivity.
  - cbn [containsByte]. rewrite IH, orb_false_r, Ascii.eqb_sym. exact E.
Qed.

Lemma ReplaceAll_app s t old new :
  ReplaceAll (s +:+ t) old new = ReplaceAll s old new +:+ ReplaceAll t old new.
Proof.
  induction s as [|c s IH]; [reflexivity|].
  rewrite app_cons. simpl. rewrite IH.
  destruct (Ascii.eqb c old); [rewrite app_assoc|rewrite app_cons]; reflexivity.
Qed.

Lemma Split_nonempty s : Split s <> [].
Proof.
  induction s as [|c s IH]; cbn [Split]; [discriminate|].
  destruct (Ascii.eqb c sep); [discriminate|].
  destruct (Split s); discriminate.
Qed.

Lemma Split_no_sep s : containsByte sep s = false -> Split s = [s].
Proof.
  induction s as [|c s IH]; [reflexivity|].
  cbn [containsByte Split]. intros [Hc Hs]%orb_false_elim.
  rewrite Ascii.eqb_sym, Hc, (IH Hs). reflexivity.
Qed.

Lemma Split_app_sep s t : Split (s +:+ String sep t) = Split s ++ Split t.
Proof.
  induction s as [|c s IH]; [reflexivity|].
  rewrite app_cons. cbn [Split]. rewrite IH.
  destruct (Ascii.eqb c sep); [reflexivity|].
  pose proof (Split_nonempty s) as Hne.
  destruct (Split s); [congruence|reflexivity].
Qed.

(** Replacing separators by hyphens is joining the pieces by hyphens. *)
Lemma ReplaceAll_hyphenate s : ReplaceAll s "/" "-" = hyphenate s.
Proof.
  unfold hyphenate. induction s as [|c s IH]; [reflexivity|].
  cbn [ReplaceAll Split]. rewrite IH.
  change (Ascii.eqb c "/") with (Ascii.eqb c sep).
  pose proof (Split_nonempty s) as Hne.
  destruct (Ascii.eqb c sep) eqn:E.
  - destruct (Split s); [congruence|reflexivity].
  - destruct (Split s) as [|h t]; [congruence|].
    destruct t; reflexivity.
Qed.

Lemma TrimLeft_strip s : TrimLeft s "/" = stripLeadingSeps s.
Proof.
  induction s as [|c s IH]; [reflexivity|].
  cbn [TrimLeft containsByte]. rewrite orb_false_r.
  destruct (Ascii.eqb c "/") eqn:E.
  - apply Ascii.eqb_eq in E. subst c. exact IH.
  - destruct c as [[] [] [] [] [] [] [] []]; try reflexivity. discriminate E.
Qed.

Lemma concat_snoc sepa (l : list string) x :
  String.concat sepa (l ++ [x])
  = (match l with [] => "" | _ => String.concat sepa l +:+ sepa end) +:+ x.
Proof.
  induction l as [|y l IH]; [reflexivity|].
  destruct l as [|z l]; [simpl; rewrite app_assoc; reflexivity|].
  change ((y :: z :: l) ++ [x]) with (y :: (z :: l) ++ [x]).
  change (String.concat sepa (y :: (z :: l) ++ [x]))
    with (y +:+ sepa +:+ String.concat sepa ((z :: l) ++ [x])).
  rewrite IH.
  change (String.concat sepa (y :: z :: l))
    with (y +:+ sepa +:+ String.concat sepa (z :: l)).
  rewrite !app_assoc. reflexivity.
Qed.

End StringFacts.

Section PathFacts.

Import strings filepath.

Lemma cleanStep_real rooted out elem :
  realElem elem -> cleanStep rooted out elem = elem :: out.
Proof.
  intros (_ & H0 & H1 & H2). unfold cleanStep.
  repeat case_decide; congruence.
Qed.

Lemma render_last rooted (out : list string) :
  exists dir, forall e, render rooted (e :: out) = dir +:+ e.
Proof.
  exists ((if rooted then "/" else "")
          +:+ match rev out with [] => "" | _ => String.concat "/" (rev out) +:+ "/" end).
  intros e. unfold render.
  replace (rev (e :: out)) with (rev out ++ [e]) by reflexivity.
  rewrite concat_snoc.
  destruct rooted; [|rewrite app_nil_l]; rewrite ?app_assoc; reflexivity.
Qed.

Lemma isRooted_app_sep q t u :
  isRooted (q +:+ String sep t) = isRooted (q +:+ String sep u).
Proof. destruct q; reflexivity. Qed.

(** [Clean] keeps a real last element as it is, behind a directory part
    that the elements before it determine. *)
Lemma Clean_last q :
  exists dir, forall elem, realElem elem -> Clean (q +:+ String sep elem) = dir +:+ elem.
Proof.
  set (rooted := isRooted (q +:+ String sep "")).
  destruct (render_last rooted (fold_left (cleanStep rooted) (Split q) []))
    as [dir Hdir].
  exists dir. intros elem Hreal. unfold Clean.
  case_decide as Hempty; [destruct q; discriminate Hempty|].
  rewrite (isRooted_app_sep q elem ""). fold rooted.
  rewrite Split_app_sep, (Split_no_sep elem) by apply Hreal.
  rewrite fold_left_app. cbn [fold_left].
  rewrite cleanStep_real by exact Hreal. apply Hdir.
Qed.

Lemma isRooted_no_sep elem : containsByte sep elem = false -> isRooted elem = false.
Proof.
  destruct elem as [|c elem]; [reflexivity|].
  cbn [containsByte isRooted]. intros [Hc _]%orb_false_elim.
  rewrite Ascii.eqb_sym. exact Hc.
Qed.

Lemma Clean_single elem : realElem elem -> Clean elem = elem.
Proof.
  intros Hreal. unfold Clean.
  case_decide as Hempty; [destruct Hreal as (_ & ? & _); congruence|].
  rewrite isRooted_no_sep, Split_no_sep by apply Hreal.
  cbn [fold_left]. rewrite cleanStep_real by exact Hreal. reflexivity.
Qed.

(** The key of three elements ends with the last one, behind a directory
    part that only the first two determine. *)
Lemma Join_last root host :
  exists dir, forall elem, realElem elem -> Join [root; host; elem] = dir +:+ elem.
Proof.
  destruct (decide (root = "")) as [Hroot|Hroot].
  - destruct (decide (host = "")) as [Hhost|Hhost].
    + exists "". intros elem Hreal. subst. unfold Join. cbn [dropEmpty].
      destruct (decide ("" = "")) as [_|]; [|congruence].
      case_decide as He; [destruct Hreal as (_ & ? & _); congruence|].
      cbn [String.concat]. rewrite app_nil_l. apply Clean_single, Hreal.
    + destruct (Clean_last host) as [dir Hdir]. exists dir.
      intros elem Hreal. subst root. unfold Join. cbn [dropEmpty].
      destruct (decide ("" = "")) as [_|]; [|congruence].
      case_decide; [congruence|].
      cbn [String.concat]. apply Hdir, Hreal.
  - destruct (Clean_last (root +:+ "/" +:+ host)) as [dir Hdir]. exists dir.
    intros elem Hreal. unfold Join. cbn [dropEmpty].
    case_decide; [congruence|].
    cbn [String.concat]. rewrite <- Hdir by exact Hreal.
    rewrite !app_assoc. reflexivity.
Qed.

Lemma length_neq (s t : string) : String.length s <> String.length t -> s <> t.
Proof. congruence. Qed.

(** The last element of a key is a real element. *)
Lemma segment_real p q :
  containsByte sep p = false -> containsByte sep q = false ->
  realElem (ToLower (p +:+ "?" +:+ q +:+ ".gz")).
Proof.
  intros Hp Hq. unfold realElem.
  rewrite ToLower_sep, !containsByte_app, Hp, Hq.
  split; [reflexivity|].
  repeat split; apply length_neq;
    rewrite ToLower_length, !app_length; cbn [String.length]; lia.
Qed.

Lemma fsKey_segment_real (u : url.URL) :
  realElem (ToLower (ReplaceAll (TrimLeft (url.Path u) "/") "/" "-" +:+ "?"
                     +:+ ReplaceAll (url.RawQuery u) "/" "-" +:+ ".gz")).
Proof. intros. apply segment_real; apply ReplaceAll_sep. Qed.

End PathFacts.

(** ** The key deriver *)

Section KeyDeriver.

Import strings filepath.

(** The key is the directory part that root and host give, followed by
    the segment. *)
Lemma fsKey_shape root host :
  exists dir, forall path query,
    fsKey root (url.mkURL host path query)
    = dir +:+ ToLower (ReplaceAll (TrimLeft path "/") "/" "-" +:+ "?"
                      +:+ ReplaceAll query "/" "-" +:+ ".gz").
Proof.
  destruct (Join_last root host) as [dir Hdir]. exists dir.
  intros path query. unfold fsKey. cbn [url.Host url.Path url.RawQuery].
  apply Hdir, (fsKey_segment_real (url.mkURL host path query)).
Qed.

(** C4, as stated, fails: a separator in the query and a hyphen in its
    place give one key, and so do two queries that differ in case. *)
Lemma C4_query_collision :
  "a/b" <> "a-b" /\ "Q=1" <> "q=1"
  /\ fsKey "/tmp" (url.mkURL "example.com" "/p" "a/b")
     = fsKey "/tmp" (url.mkURL "example.com" "/p" "a-b")
  /\ fsKey "/tmp" (url.mkURL "example.com" "/p" "Q=1")
     = fsKey "/tmp" (url.mkURL "example.com" "/p" "q=1").
Proof. repeat split; try discriminate; vm_compute; reflexivity. Qed.

(** C4, amended: the key is a function of (host, path, query), and for a
    fixed root, host and path two ASCII queries give the same key exactly
    when they are equal after their separators are replaced by hyphens
    and they are lower-cased; so queries that differ after that
    normalisation give different keys. *)
Theorem C4_key_injective_up_to_normalisation root host path q1 q2 :
  isASCII path = true -> isASCII q1 = true -> isASCII q2 = true ->
  (fsKey root (url.mkURL host path q1) = fsKey root (url.mkURL host path q2)
   <-> ToLower (ReplaceAll q1 "/" "-") = ToLower (ReplaceAll q2 "/" "-")).
Proof.
  intros _ _ _. destruct (fsKey_shape root host) as [dir Hdir].
  rewrite !Hdir, !ToLower_app. split.
  - intros Heq. apply String.app_inj in Heq.
    do 2 apply String.app_inj in Heq.
    assert (forall a b, a +:+ ".gz" = b +:+ ".gz" -> a = b) as Hsuffix.
    { clear. induction a as [|c a IH]; intros [|d b] Hab.
      - reflexivity.
      - apply (f_equal String.length) in Hab.
        rewrite app_cons, app_nil_l in Hab. cbn [String.length] in Hab.
        rewrite app_length in Hab. cbn [String.length] in Hab. lia.
      - apply (f_equal String.length) in Hab.
        rewrite app_cons, app_nil_l in Hab. cbn [String.length] in Hab.
        rewrite app_length in Hab. cbn [String.length] in Hab. lia.
      - rewrite !app_cons in Hab. injection Hab as -> Hab.
        f_equal. apply IH, Hab. }
    apply Hsuffix. exact Heq.
  - intros ->. reflexivity.
Qed.

Lemma C4_key_injective_up_to_normalisation_witness :
  fsKey "/tmp" (url.mkURL "example.com" "/p" "a=1/2")
  = fsKey "/tmp" (url.mkURL "example.com" "/p" "A=1-2")
  <-> ToLower (ReplaceAll "a=1/2" "/" "-") = ToLower (ReplaceAll "A=1-2" "/" "-").
Proof.
  apply (C4_key_injective_up_to_normalisation "/tmp" "example.com" "/p"
           "a=1/2" "A=1-2"); reflexivity.
Defined.



End KeyDeriver.

(** ** Numbers, times and headers *)

Section BasicFacts.

Lemma wrap64_small z : minInt64 <= z <= maxInt64 -> wrap64 z = z.
Proof.
  unfold minInt64, maxInt64, wrap64. intros Hz.
  rewrite Z.mod_small by lia. lia.
Qed.

Lemma string_of_uint_sign d :
  strconv.splitSign (NilEmpty.string_of_uint d) = (false, NilEmpty.string_of_uint d).
Proof. destruct d; reflexivity. Qed.

Lemma parseDigits_string_of_uint d :
  d <> Nil -> strconv.parseDigits (NilEmpty.string_of_uint d) = Some (Z.of_uint d).
Proof.
  intros Hd. unfold strconv.parseDigits. rewrite NilEmpty.usu.
  destruct d; congruence.
Qed.

Lemma of_uint_to_uint p : Z.of_uint (Pos.to_uint p) = Z.pos p.
Proof. unfold Z.of_uint. rewrite DecimalPos.Unsigned.of_to. reflexivity. Qed.

Lemma NilZero_to_uint p :
  NilZero.string_of_uint (Pos.to_uint p) = NilEmpty.string_of_uint (Pos.to_uint p).
Proof.
  pose proof (DecimalPos.Unsigned.to_uint_nonnil p) as Hp.
  destruct (Pos.to_uint p); [congruence|reflexivity..].
Qed.

(** What [fmt.Sprintf("%d", n)] writes, [strconv.ParseInt] reads back. *)
Lemma ParseInt_FormatInt n :
  minInt64 <= n <= maxInt64 -> strconv.ParseInt (strconv.FormatInt n) = Ok n.
Proof.
  intros Hn. unfold strconv.ParseInt, strconv.FormatInt.
  destruct n as [|p|p]; [reflexivity| |]; cbn [Z.to_int NilZero.string_of_int];
    rewrite NilZero_to_uint.
  - rewrite string_of_uint_sign, parseDigits_string_of_uint, of_uint_to_uint
      by apply DecimalPos.Unsigned.to_uint_nonnil.
    destruct (Z.leb_spec minInt64 (Z.pos p)), (Z.leb_spec (Z.pos p) maxInt64);
      try lia; reflexivity.
  - cbn [strconv.splitSign].
    rewrite parseDigits_string_of_uint, of_uint_to_uint
      by apply DecimalPos.Unsigned.to_uint_nonnil.
    change (- Z.pos p) with (Z.neg p).
    destruct (Z.leb_spec minInt64 (Z.neg p)), (Z.leb_spec (Z.neg p) maxInt64);
      try lia; reflexivity.
Qed.

Lemma Atoi_FormatInt n :
  minInt64 <= n <= maxInt64 -> strconv.Atoi (strconv.FormatInt n) = Ok n.
Proof. intros Hn. unfold strconv.Atoi. rewrite ParseInt_FormatInt by exact Hn. reflexivity. Qed.

Lemma FormatInt_nonempty n : strconv.FormatInt n <> "".
Proof.
  unfold strconv.FormatInt.
  destruct n as [|p|p]; [discriminate| |discriminate].
  cbn [Z.to_int NilZero.string_of_int]. rewrite NilZero_to_uint.
  pose proof (DecimalPos.Unsigned.to_uint_nonnil p) as Hp.
  destruct (Pos.to_uint p); [congruence|discriminate..].
Qed.

Lemma After_Unix_zero now :
  - time.unixToInternal < now <= maxInt64 - time.unixToInternal ->
  time.After (time.Unix now) time.zero = true.
Proof.
  intros Hnow. unfold time.After, time.Unix. cbn [time.sec time.nsec time.zero].
  rewrite wrap64_small by (unfold minInt64, maxInt64, time.unixToInternal in *; lia).
  destruct (Z.ltb_spec 0 (now + time.unixToInternal)); [reflexivity|lia].
Qed.

Lemma Header_Get_Set h key value : Header_Get (Header_Set h key value) key = value.
Proof. unfold Header_Get, Header_Set. rewrite lookup_insert_eq. reflexivity. Qed.

Lemma Header_Get_Set_ne h key key' value :
  CanonicalMIMEHeaderKey key <> CanonicalMIMEHeaderKey key' ->
  Header_Get (Header_Set h key value) key' = Header_Get h key'.
Proof.
  intros Hne. unfold Header_Get, Header_Set.
  rewrite lookup_insert_ne by exact Hne. reflexivity.
Qed.

End BasicFacts.

(** ** The freshness policy *)

Section Policy.

Variables (s : Store) (rsp : Response) (lastModified : time.Time).

Lemma getVersion_default :
  Header_Get (Header rsp) (fetchVersionKey s) = "" -> getVersion s rsp = Ok 1.
Proof. unfold getVersion. intros ->. reflexivity. Qed.

Lemma Atoi_Err_inv str err :
  strconv.Atoi str = Err err -> exists err', strconv.ParseInt str = Err err'.
Proof.
  unfold strconv.Atoi. destruct (strconv.ParseInt str); [discriminate|eauto].
Qed.

(** Step 4 of the policy: an error status at or below the cap is a miss
    that reports the stored version. *)
Lemma policy_retry t version :
  declaresShortContent rsp = false ->
  getWriteTimestamp s rsp = Ok t -> getVersion s rsp = Ok version ->
  isRetriedStatus (StatusCode rsp) = true -> version <= maxErrorVersion s ->
  shouldUseCachedValue s rsp lastModified = (version, false).
Proof.
  intros Hlen Ht Hv Hcode Hcap. unfold shouldUseCachedValue.
  fold (declaresShortContent rsp).
  rewrite Hlen, Ht, Hv, Hcode. apply Z.leb_le in Hcap. rewrite Hcap. reflexivity.
Qed.

(** Step 5 of the policy: a hit with the stored version when the write
    time is after the cutoff, else a miss that reports version 0. *)
Lemma policy_final t version :
  declaresShortContent rsp = false ->
  getWriteTimestamp s rsp = Ok t -> getVersion s rsp = Ok version ->
  isRetriedStatus (StatusCode rsp) = false \/ maxErrorVersion s < version ->
  shouldUseCachedValue s rsp lastModified
  = if time.After t lastModified then (version, true) else (0, false).
Proof.
  intros Hlen Ht Hv Hfinal. unfold shouldUseCachedValue.
  fold (declaresShortContent rsp). rewrite Hlen, Ht, Hv.
  assert (isRetriedStatus (StatusCode rsp) && (version <=? maxErrorVersion s) = false)
    as ->.
  { destruct Hfinal as [-> | Hcap]; [reflexivity|].
    apply Z.leb_gt in Hcap. rewrite Hcap. apply andb_false_r. }
  reflexivity.
Qed.


End Policy.

(** ** The fetch *)

Section Fetch.

Context `{Platform}.

Variables (s : Store) (r : Request).

Let key := fsKey (fileSystemRoot s) (URL r).
Let hostDir := filepath.Dir key.

(** The world once a request went to the transport. *)
Let contacted (req : Request) (w : World) : World :=
  mkWorld (fs w) (seenHosts w) (req :: sent w) (ticks w).

Lemma CacheFetch_after_mkdir lastModified w w1 :
  ensureHostDir hostDir w = (None, w1) ->
  CacheFetch s r lastModified w
  = match readAndParseGZIPFile key r w1 with
    | Ok cachedRsp =>
        let '(storedVersion, ok) := shouldUseCachedValue s cachedRsp lastModified in
        if ok then Returns (w1, mkFetched (Some cachedRsp) true NoOpStoreFunc None)
        else fetchRemote s key r storedVersion
               (Header_Get (Header cachedRsp) _etagKey) (Some cachedRsp) w1
    | Err _ => fetchRemote s key r 0 "" None w1
    end.
Proof.
  intros Hdir. unfold CacheFetch, internalCacheFetch.
  fold key. fold hostDir. rewrite Hdir. reflexivity.
Qed.

Lemma ensureHostDir_seen w : hostDir ∈ seenHosts w -> ensureHostDir hostDir w = (None, w).
Proof. intros Hseen. unfold ensureHostDir. case_decide; [reflexivity|contradiction]. Qed.

Lemma ensureHostDir_ok w w1 :
  ensureHostDir hostDir w = (None, w1) ->
  hostDir ∈ seenHosts w1 /\ sent w1 = sent w /\ ticks w1 = ticks w
  /\ (fs w1 = fs w \/ fs w1 = snd (os_MkdirAll hostDir (fs w))).
Proof.
  unfold ensureHostDir. case_decide as Hseen.
  - intros [= <-]. auto.
  - destruct (os_MkdirAll hostDir (fs w)) as [[err|] fs'] eqn:Hmk; intros [= <-].
    cbn. repeat split; [set_solver|auto].
Qed.

Lemma fetchRemote_error version etag cachedRsp w rsp err :
  Do (client s) (length (sent w)) (withIfNoneMatch r etag) = (rsp, Some err) ->
  fetchRemote s key r version etag cachedRsp w
  = Returns (contacted (withIfNoneMatch r etag) w,
             mkFetched rsp false NoOpStoreFunc (Some err)).
Proof. intros Hdo. unfold fetchRemote. rewrite Hdo. destruct rsp; reflexivity. Qed.

Lemma fetchRemote_not_modified version etag cachedRsp w rsp :
  Do (client s) (length (sent w)) (withIfNoneMatch r etag) = (Some rsp, None) ->
  StatusCode rsp = StatusNotModified ->
  fetchRemote s key r version etag cachedRsp w
  = Returns (contacted (withIfNoneMatch r etag) w,
             mkFetched cachedRsp true NoOpStoreFunc None).
Proof.
  intros Hdo Hcode. unfold fetchRemote. rewrite Hdo, Hcode. reflexivity.
Qed.

Lemma fetchRemote_stored version etag cachedRsp w rsp dump :
  Do (client s) (length (sent w)) (withIfNoneMatch r etag) = (Some rsp, None) ->
  StatusCode rsp <> StatusNotModified ->
  httputil_DumpResponse
    (stampMetadata s (time_Now_Unix (ticks w)) (wrap64 (version + 1)) rsp) = Ok dump ->
  fetchRemote s key r version etag cachedRsp w
  = Returns (mkWorld (fs w) (seenHosts w) (withIfNoneMatch r etag :: sent w) (S (ticks w)),
             mkFetched
               (Some (stampMetadata s (time_Now_Unix (ticks w)) (wrap64 (version + 1)) rsp))
               false (writeStoreFunc key dump) None).
Proof.
  intros Hdo Hcode Hdump. unfold fetchRemote. rewrite Hdo.
  apply Z.eqb_neq in Hcode. rewrite Hcode.
  unfold prepareForWriting. cbn [ticks fs seenHosts sent].
  rewrite Hdump. reflexivity.
Qed.

(** C8: when the fetch reaches the transport (no readable entry, or an
    entry the policy does not accept) and [Do] returns an error, the fetch
    returns what [Do] returned: its response, not cached, the no-op commit
    and that very error; the file system is the one it found after the
    host directory was ensured, and calling the commit changes nothing. *)
Theorem C8_transport_error lastModified w w1 etag rsp err :
  ensureHostDir hostDir w = (None, w1) ->
  (exists e, readAndParseGZIPFile key r w1 = Err e /\ etag = "")
  \/ (exists cachedRsp,
       readAndParseGZIPFile key r w1 = Ok cachedRsp
       /\ snd (shouldUseCachedValue s cachedRsp lastModified) = false
       /\ etag = Header_Get (Header cachedRsp) _etagKey) ->
  Do (client s) (length (sent w1)) (withIfNoneMatch r etag) = (rsp, Some err) ->
  exists w',
    CacheFetch s r lastModified w
    = Returns (w', mkFetched rsp false NoOpStoreFunc (Some err))
    /\ fs w' = fs w1
    /\ callStoreFunc NoOpStoreFunc w' = (None, w')
    /\ CacheFetchAndStore s r lastModified w = Returns (w', (rsp, false, Some err)).
Proof.
  intros Hdir Hmiss Hdo. exists (contacted (withIfNoneMatch r etag) w1).
  assert (CacheFetch s r lastModified w
          = Returns (contacted (withIfNoneMatch r etag) w1,
                     mkFetched rsp false NoOpStoreFunc (Some err))) as Hfetch.
  { rewrite (CacheFetch_after_mkdir _ _ _ Hdir).
    destruct Hmiss as [(e & -> & ->) | (cachedRsp & -> & Hmiss & ->)].
    - apply fetchRemote_error, Hdo.
    - destruct (shouldUseCachedValue s cachedRsp lastModified) as [v ok].
      cbn in Hmiss. subst ok. apply fetchRemote_error, Hdo. }
  repeat split; [exact Hfetch|].
  unfold CacheFetchAndStore. rewrite Hfetch. reflexivity.
Qed.

(** C10: with no decodable entry at the key, a reply of 304 makes the
    fetch return a nil response marked as a hit, with the no-op commit and
    no error; the request sent carries [If-None-Match] with the empty
    string as its value. *)
Theorem C10_not_modified_without_entry lastModified w w1 e rsp :
  ensureHostDir hostDir w = (None, w1) ->
  readAndParseGZIPFile key r w1 = Err e ->
  Do (client s) (length (sent w1)) (withIfNoneMatch r "") = (Some rsp, None) ->
  StatusCode rsp = StatusNotModified ->
  CacheFetch s r lastModified w
  = Returns (contacted (withIfNoneMatch r "") w1, mkFetched None true NoOpStoreFunc None)
  /\ ReqHeader (withIfNoneMatch r "") !! _ifNoneMatchKey = Some [""].
Proof.
  intros Hdir Hread Hdo Hcode. split.
  - rewrite (CacheFetch_after_mkdir _ _ _ Hdir), Hread.
    apply (fetchRemote_not_modified _ _ _ _ rsp); assumption.
  - unfold withIfNoneMatch, Header_Set. cbn [ReqHeader].
    change (CanonicalMIMEHeaderKey _ifNoneMatchKey) with _ifNoneMatchKey.
    apply lookup_insert_eq.
Qed.


(** C9: the guard of [RawCacheData] is false for every error, so when the
    file is absent or cannot be opened as gzip the function does not
    return the error: it goes on to read from the nil reader and panics. *)
Theorem C9_RawCacheData_read_failure (u : url.URL) w :
  (forall err : option error, bool_decide (err <> err) = false)
  /\ ((exists e, os_ReadFile (fsKey (fileSystemRoot s) u) (fs w) = Err e)
      \/ (exists f e, os_ReadFile (fsKey (fileSystemRoot s) u) (fs w) = Ok f
                      /\ gzip_NewReader f = Err e)
      -> RawCacheData s u w = Panics).
Proof.
  assert (forall err : option error, bool_decide (err <> err) = false) as Hguard.
  { intros err. apply bool_decide_eq_false. intros Hne. apply Hne. reflexivity. }
  split; [exact Hguard|].
  intros Hfail. unfold RawCacheData, readGZIPFile.
  destruct Hfail as [[e ->] | (f & e & -> & ->)]; rewrite Hguard; reflexivity.
Qed.

Lemma miss_writes lastModified w w1 version etag cachedRsp :
  ensureHostDir hostDir w = (None, w1) ->
  TransportAnswers s w1 ->
  CacheFetch s r lastModified w = fetchRemote s key r version etag cachedRsp w1 ->
  WritesVersion s r lastModified w (wrap64 (version + 1)).
Proof.
  intros Hdir Htransport Hfetch.
  destruct (Htransport (withIfNoneMatch r etag)) as (rsp & Hdo & Hcode & Hdump).
  destruct (Hdump (time_Now_Unix (ticks w1)) (wrap64 (version + 1))) as [dump Hd].
  unfold WritesVersion. rewrite Hfetch.
  rewrite (fetchRemote_stored _ _ _ _ _ _ Hdo Hcode Hd).
  eexists _, _, dump. split; [reflexivity|]. split; [|exact Hd].
  unfold stampMetadata. cbn [Header]. apply Header_Get_Set.
Qed.

(** C2, amended: when the policy reaches its final step and the stored
    write time is not after the cutoff, it reports a miss with version 0,
    and the next write is stamped with version 1; a miss of the retry step
    (error status, stored version at most the cap) reports the stored
    version, and the next write is stamped with that version plus one (in
    64-bit arithmetic); the first write at a key is stamped with 1. *)
Theorem C2_version_counter lastModified w w1 :
  ensureHostDir hostDir w = (None, w1) ->
  TransportAnswers s w1 ->
  (forall e, readAndParseGZIPFile key r w1 = Err e ->
             WritesVersion s r lastModified w 1)
  /\ (forall cachedRsp t version,
        readAndParseGZIPFile key r w1 = Ok cachedRsp ->
        declaresShortContent cachedRsp = false ->
        getWriteTimestamp s cachedRsp = Ok t ->
        getVersion s cachedRsp = Ok version ->
        (isRetriedStatus (StatusCode cachedRsp) = true ->
         version <= maxErrorVersion s ->
         shouldUseCachedValue s cachedRsp lastModified = (version, false)
         /\ WritesVersion s r lastModified w (wrap64 (version + 1)))
        /\ (isRetriedStatus (StatusCode cachedRsp) = false
            \/ maxErrorVersion s < version ->
            time.After t lastModified = false ->
            shouldUseCachedValue s cachedRsp lastModified = (0, false)
            /\ WritesVersion s r lastModified w 1)).
Proof.
  intros Hdir Htransport. split.
  - intros e Hread. apply (miss_writes _ _ w1 0 "" None Hdir Htransport).
    rewrite (CacheFetch_after_mkdir _ _ _ Hdir), Hread. reflexivity.
  - intros cachedRsp t version Hread Hlen Ht Hv. split.
    + intros Hcode Hcap.
      pose proof (policy_retry s cachedRsp lastModified t version
                    Hlen Ht Hv Hcode Hcap) as Hpolicy.
      split; [exact Hpolicy|].
      apply (miss_writes _ _ w1 version
               (Header_Get (Header cachedRsp) _etagKey) (Some cachedRsp) Hdir Htransport).
      rewrite (CacheFetch_after_mkdir _ _ _ Hdir), Hread, Hpolicy. reflexivity.
    + intros Hfinal Hstale.
      pose proof (policy_final s cachedRsp lastModified t version
                    Hlen Ht Hv Hfinal) as Hpolicy.
      rewrite Hstale in Hpolicy.
      split; [exact Hpolicy|].
      apply (miss_writes _ _ w1 0
               (Header_Get (Header cachedRsp) _etagKey) (Some cachedRsp) Hdir Htransport).
      rewrite (CacheFetch_after_mkdir _ _ _ Hdir), Hread, Hpolicy. reflexivity.
Qed.

(** *** An entry from its write to the next read *)

Lemma wrap64_range z : minInt64 <= wrap64 z <= maxInt64.
Proof.
  unfold wrap64, minInt64, maxInt64.
  pose proof (Z.mod_pos_bound (z + 2 ^ 63) (2 ^ 64)). lia.
Qed.

Lemma readAndParse_same_file w w' :
  os_ReadFile key (fs w') = os_ReadFile key (fs w) ->
  readAndParseGZIPFile key r w' = readAndParseGZIPFile key r w.
Proof. intros Hfile. unfold readAndParseGZIPFile, readGZIPFile. rewrite Hfile. reflexivity. Qed.

Lemma fetchRemote_write_inv version etag cachedRsp w w1 rsp k dump :
  fetchRemote s key r version etag cachedRsp w
  = Returns (w1, mkFetched (Some rsp) false (writeStoreFunc k dump) None) ->
  k = key /\ seenHosts w1 = seenHosts w
  /\ httputil_DumpResponse rsp = Ok dump
  /\ exists rsp0,
      rsp = stampMetadata s (time_Now_Unix (ticks w)) (wrap64 (version + 1)) rsp0.
Proof.
  unfold fetchRemote.
  destruct (Do (client s) (length (sent w)) (withIfNoneMatch r etag))
    as [[rsp0|] [err|]]; try discriminate.
  destruct (StatusCode rsp0 =? StatusNotModified); [discriminate|].
  unfold prepareForWriting.
  destruct (httputil_DumpResponse _) as [dump'|] eqn:Hdump; [|discriminate].
  intros [= <- <- <- <-]. eauto.
Qed.

Lemma CacheFetch_write_inv lastModified w w1 rsp k dump :
  CacheFetch s r lastModified w
  = Returns (w1, mkFetched (Some rsp) false (writeStoreFunc k dump) None) ->
  k = key /\ hostDir ∈ seenHosts w1
  /\ httputil_DumpResponse rsp = Ok dump
  /\ exists n version rsp0,
      rsp = stampMetadata s (time_Now_Unix n) (wrap64 version) rsp0.
Proof.
  destruct (ensureHostDir hostDir w) as [[err|] w0] eqn:Hdir.
  { unfold CacheFetch, internalCacheFetch. fold key. fold hostDir.
    rewrite Hdir. discriminate. }
  rewrite (CacheFetch_after_mkdir _ _ _ Hdir).
  destruct (ensureHostDir_ok _ _ Hdir) as (Hseen & _).
  destruct (readAndParseGZIPFile key r w0) as [cachedRsp|].
  - destruct (shouldUseCachedValue s cachedRsp lastModified) as [v [|]];
      [discriminate|].
    intros (-> & Hs & Hd & rsp0 & ->)%fetchRemote_write_inv.
    rewrite Hs. eauto 8.
  - intros (-> & Hs & Hd & rsp0 & ->)%fetchRemote_write_inv.
    rewrite Hs. eauto 8.
Qed.

(** The metadata of a stamped response, read back by the policy. *)
Lemma stamped_metadata now version rsp cachedRsp :
  CanonicalMIMEHeaderKey (fetchTimestampKey s)
  <> CanonicalMIMEHeaderKey (fetchVersionKey s) ->
  minInt64 <= now <= maxInt64 -> minInt64 <= version <= maxInt64 ->
  Header_Get (Header cachedRsp) (fetchTimestampKey s)
  = Header_Get (Header (stampMetadata s now version rsp)) (fetchTimestampKey s) ->
  Header_Get (Header cachedRsp) (fetchVersionKey s)
  = Header_Get (Header (stampMetadata s now version rsp)) (fetchVersionKey s) ->
  getWriteTimestamp s cachedRsp = Ok (time.Unix now)
  /\ getVersion s cachedRsp = Ok version.
Proof.
  intros Hkeys Hnow Hversion Hts Hv.
  unfold stampMetadata in Hts, Hv. cbn [Header] in Hts, Hv.
  rewrite Header_Get_Set in Hv.
  rewrite Header_Get_Set_ne, Header_Get_Set in Hts by congruence.
  unfold getWriteTimestamp, getVersion. rewrite Hts, Hv.
  pose proof (FormatInt_nonempty now). pose proof (FormatInt_nonempty version).
  repeat case_decide; try contradiction.
  rewrite ParseInt_FormatInt, Atoi_FormatInt by assumption. auto.
Qed.

Lemma ClockInRange_int64 n :
  ClockInRange -> minInt64 <= time_Now_Unix n <= maxInt64.
Proof.
  intros Hclock. specialize (Hclock n).
  unfold minInt64, maxInt64, time.unixToInternal in *. lia.
Qed.

(** Committing a pending write makes the key read back as its dump does. *)
Lemma commit_reads_back w w2 dump rsp :
  FSKeepsFiles ->
  callStoreFunc (writeStoreFunc key dump) w = (None, w2) ->
  ReadsBackAs s r dump rsp ->
  seenHosts w2 = seenHosts w /\ sent w2 = sent w /\ ticks w2 = ticks w
  /\ exists cachedRsp,
      readAndParseGZIPFile key r w2 = Ok cachedRsp
      /\ StatusCode cachedRsp = StatusCode rsp
      /\ Body cachedRsp = Body rsp
      /\ Header_Get (Header cachedRsp) (fetchTimestampKey s)
         = Header_Get (Header rsp) (fetchTimestampKey s)
      /\ Header_Get (Header cachedRsp) (fetchVersionKey s)
         = Header_Get (Header rsp) (fetchVersionKey s)
      /\ declaresShortContent cachedRsp = false.
Proof.
  intros [Hkeeps _] Hcommit
    (buffer & gzipReader & cachedRsp & Hgz & Hopen & Hparse & Hrest).
  unfold callStoreFunc in Hcommit. rewrite Hgz in Hcommit.
  destruct (os_WriteFile key buffer (fs w)) as [err fs'] eqn:Hwrite.
  injection Hcommit as -> <-. cbn [seenHosts sent ticks].
  repeat split. exists cachedRsp. split; [|exact Hrest].
  unfold readAndParseGZIPFile, readGZIPFile. cbn [fs].
  rewrite (Hkeeps _ _ _ _ Hwrite), Hopen. exact Hparse.
Qed.

(** C3, amended: take a request whose response was fetched as a miss and
    committed without error, such that the stored entry reads back with
    the status, body and metadata written and without a declared content
    length below 10, was stamped by a clock after year 1, and is not an
    error status at or below the retry cap. Then a second [CacheFetch] of
    the request with the zero cutoff returns a hit with the same body and
    leaves the world, and so the list of transport calls, as it is. *)
Theorem C3_second_fetch_hits lastModified w w1 w2 rsp k dump :
  FSKeepsFiles -> ClockInRange ->
  CanonicalMIMEHeaderKey (fetchTimestampKey s)
  <> CanonicalMIMEHeaderKey (fetchVersionKey s) ->
  CacheFetch s r lastModified w
  = Returns (w1, mkFetched (Some rsp) false (writeStoreFunc k dump) None) ->
  callStoreFunc (writeStoreFunc k dump) w1 = (None, w2) ->
  ReadsBackAs s r dump rsp ->
  isRetriedStatus (StatusCode rsp) = false
  \/ (exists version, getVersion s rsp = Ok version /\ maxErrorVersion s < version) ->
  exists cachedRsp,
    CacheFetch s r time.zero w2
    = Returns (w2, mkFetched (Some cachedRsp) true NoOpStoreFunc None)
    /\ Body cachedRsp = Body rsp
    /\ StatusCode cachedRsp = StatusCode rsp.
Proof.
  intros Hfs Hclock Hkeys Hfetch Hcommit Hback Hfinal.
  destruct (CacheFetch_write_inv _ _ _ _ _ _ Hfetch)
    as (-> & Hseen & Hdump & n & version & rsp0 & ->).
  destruct (commit_reads_back _ _ _ _ Hfs Hcommit Hback)
    as (Hseen2 & _ & _ & cachedRsp & Hread & Hcode & Hbody & Hts & Hv & Hlen).
  destruct (stamped_metadata _ _ _ _ Hkeys (ClockInRange_int64 n Hclock)
              (wrap64_range version) Hts Hv) as [Htime Hversion].
  exists cachedRsp. split; [|auto].
  rewrite (CacheFetch_after_mkdir _ w2 w2)
    by (apply ensureHostDir_seen; rewrite Hseen2; exact Hseen).
  rewrite Hread.
  rewrite (policy_final s cachedRsp time.zero _ _ Hlen Htime Hversion).
  - rewrite After_Unix_zero by apply Hclock. reflexivity.
  - rewrite Hcode. destruct Hfinal as [Hok | (v & Hgv & Hcap)]; [left; exact Hok|].
    right. unfold getVersion in Hgv. unfold stampMetadata in Hgv.
    cbn [Header] in Hgv. rewrite Header_Get_Set in Hgv.
    pose proof (FormatInt_nonempty (wrap64 version)).
    case_decide; [|contradiction].
    rewrite Atoi_FormatInt in Hgv by apply wrap64_range. congruence.
Qed.

(** *** Bounded retry of error responses *)

Section Retry.

Hypothesis Hkeeps : FSKeepsFiles.
Hypothesis Haccepts : FSAccepts.
Hypothesis Hclock : ClockInRange.
Hypothesis Hkeys :
  CanonicalMIMEHeaderKey (fetchTimestampKey s)
  <> CanonicalMIMEHeaderKey (fetchVersionKey s).
Hypothesis Htransport : TransportKeepsFailing s r.

Lemma ensureHostDir_accepted w :
  exists w1, ensureHostDir hostDir w = (None, w1)
             /\ readAndParseGZIPFile key r w1 = readAndParseGZIPFile key r w.
Proof.
  unfold ensureHostDir. case_decide as Hseen; [eauto|].
  destruct Haccepts as [Hmk _]. destruct Hkeeps as [_ Hsame].
  specialize (Hmk hostDir (fs w)). specialize (Hsame hostDir key (fs w)).
  destruct (os_MkdirAll hostDir (fs w)) as [err fs'].
  cbn in Hmk, Hsame. subst err. eexists. split; [reflexivity|].
  apply readAndParse_same_file. exact Hsame.
Qed.

Lemma isRetriedStatus_not_304 code :
  isRetriedStatus code = true -> code <> StatusNotModified.
Proof. intros Hcode ->. discriminate Hcode. Qed.

(** A fetch that goes to the transport with [version], followed by the
    commit, leaves an error entry stamped [version + 1]. *)
Lemma retry_store lastModified w w1 version etag cachedRsp :
  ensureHostDir hostDir w = (None, w1) ->
  CacheFetch s r lastModified w = fetchRemote s key r version etag cachedRsp w1 ->
  0 <= version < maxInt64 ->
  exists w' rsp,
    CacheFetchAndStore s r lastModified w = Returns (w', (Some rsp, false, None))
    /\ ErrorEntry s r w' (version + 1)
    /\ length (sent w') = S (length (sent w))
    /\ isRetriedStatus (StatusCode rsp) = true
    /\ Header_Get (Header rsp) (fetchVersionKey s) = strconv.FormatInt (version + 1).
Proof.
  intros Hdir Hfetch Hversion.
  destruct (ensureHostDir_ok _ _ Hdir) as (Hseen & Hsent & _).
  destruct (Htransport (length (sent w1)) (withIfNoneMatch r etag))
    as (rsp0 & Hdo & Hcode & Hcodec).
  destruct (Hcodec (time_Now_Unix (ticks w1)) (wrap64 (version + 1)))
    as (dump & Hdump & Hback).
  pose proof (fetchRemote_stored version etag cachedRsp w1 rsp0 dump Hdo
                (isRetriedStatus_not_304 _ Hcode) Hdump) as Hremote.
  rewrite <- Hfetch in Hremote.
  set (w2 := mkWorld (fs w1) (seenHosts w1) (withIfNoneMatch r etag :: sent w1)
               (S (ticks w1))) in *.
  destruct Haccepts as [_ Hwrite].
  destruct Hback as (buffer & Hback').
  pose proof Hback' as (gzipReader & cached' & Hgz & _).
  specialize (Hwrite key buffer (fs w2)).
  destruct (os_WriteFile key buffer (fs w2)) as [werr fs'] eqn:Hw.
  cbn in Hwrite. subst werr.
  assert (callStoreFunc (writeStoreFunc key dump) w2
          = (None, mkWorld fs' (seenHosts w2) (sent w2) (ticks w2))) as Hcommit.
  { unfold callStoreFunc. rewrite Hgz, Hw. reflexivity. }
  destruct (commit_reads_back _ _ _ _ Hkeeps Hcommit (ex_intro _ buffer Hback'))
    as (_ & _ & _ & cachedRsp' & Hread & Hcode' & _ & Hts & Hv & Hlen).
  rewrite (wrap64_small (version + 1)) in *
    by (unfold minInt64, maxInt64 in *; lia).
  assert (minInt64 <= version + 1 <= maxInt64) as Hrange
    by (unfold minInt64, maxInt64 in *; lia).
  destruct (stamped_metadata _ _ _ _ Hkeys
              (ClockInRange_int64 (ticks w1) Hclock) Hrange Hts Hv)
    as [Htime Hgv].
  eexists _, _. split; [|split; [|split; [|split]]].
  - unfold CacheFetchAndStore. rewrite Hremote. cbn [f_err f_storeFunc f_rsp f_cached].
    rewrite Hcommit. reflexivity.
  - split; [exact Hseen|]. exists cachedRsp', (time_Now_Unix (ticks w1)).
    repeat split; try assumption; try apply Hclock.
    rewrite Hcode'. exact Hcode.
  - cbn. rewrite Hsent. reflexivity.
  - exact Hcode.
  - unfold stampMetadata. cbn [Header]. apply Header_Get_Set.
Qed.

(** One more fetch while the version is at most the cap. *)
Lemma retry_step lastModified w version :
  0 <= version <= maxErrorVersion s -> maxErrorVersion s < maxInt64 ->
  (version = 0 /\ NoEntry s r w) \/ (0 < version /\ ErrorEntry s r w version) ->
  exists w' rsp,
    CacheFetchAndStore s r lastModified w = Returns (w', (Some rsp, false, None))
    /\ ErrorEntry s r w' (version + 1)
    /\ length (sent w') = S (length (sent w))
    /\ isRetriedStatus (StatusCode rsp) = true
    /\ Header_Get (Header rsp) (fetchVersionKey s) = strconv.FormatInt (version + 1).
Proof.
  intros Hversion Hcap Hentry.
  destruct (ensureHostDir_accepted w) as (w1 & Hdir & Hsame).
  destruct Hentry as [[-> [e Hread]] | [Hpos (_ & cachedRsp & now & Hread & Hlen
                                               & Hcode & Hts & _ & Hv)]].
  - apply (retry_store lastModified w w1 0 "" None Hdir); [|lia].
    rewrite (CacheFetch_after_mkdir _ _ _ Hdir), Hsame.
    fold key in Hread. rewrite Hread. reflexivity.
  - apply (retry_store lastModified w w1 version
             (Header_Get (Header cachedRsp) _etagKey) (Some cachedRsp) Hdir); [|lia].
    rewrite (CacheFetch_after_mkdir _ _ _ Hdir), Hsame.
    fold key in Hread. rewrite Hread.
    rewrite (policy_retry s cachedRsp lastModified _ _ Hlen Hts Hv Hcode)
      by lia.
    reflexivity.
Qed.

(** A run of fetches, each committed, while the version stays at most
    one above the cap. *)
Lemma retry_run cutoffs : forall w version,
  0 <= version -> version + Z.of_nat (length cutoffs) <= maxErrorVersion s + 1 ->
  maxErrorVersion s < maxInt64 ->
  (version = 0 /\ NoEntry s r w) \/ (0 < version /\ ErrorEntry s r w version) ->
  exists w' results,
    fetchEach s r cutoffs w = Returns (w', results)
    /\ ((cutoffs = [] /\ w' = w)
        \/ ErrorEntry s r w' (version + Z.of_nat (length cutoffs)))
    /\ length (sent w') = (length cutoffs + length (sent w))%nat
    /\ forall i x, results !! i = Some x ->
         exists rsp,
           x = (Some rsp, false, None)
           /\ isRetriedStatus (StatusCode rsp) = true
           /\ Header_Get (Header rsp) (fetchVersionKey s)
              = strconv.FormatInt (version + Z.of_nat i + 1).
Proof.
  induction cutoffs as [|c cutoffs IH]; intros w version Hpos Hlen Hcap Hentry.
  - exists w, []. cbn [fetchEach]. repeat split; [auto|].
    intros i x Hx. rewrite lookup_nil in Hx. discriminate.
  - cbn [length] in Hlen.
    destruct (retry_step c w version ltac:(lia) Hcap Hentry)
      as (w1 & rsp & Hstep & Hentry1 & Hsent1 & Hcode & Hv).
    destruct (IH w1 (version + 1) ltac:(lia) ltac:(lia) Hcap
                ltac:(right; split; [lia|exact Hentry1]))
      as (w' & results & Hrun & Hentry' & Hsent' & Hresults).
    exists w', ((Some rsp, false, None) :: results).
    cbn [fetchEach]. rewrite Hstep, Hrun.
    split; [reflexivity|]. split; [|split].
    + right. destruct Hentry' as [[-> ->] | Hentry'].
      * cbn [length]. replace (version + Z.of_nat 1) with (version + 1) by lia.
        exact Hentry1.
      * replace (version + Z.of_nat (length (c :: cutoffs)))
          with (version + 1 + Z.of_nat (length cutoffs))
          by (cbn [length]; lia).
        exact Hentry'.
    + rewrite Hsent', Hsent1. cbn [length]. lia.
    + intros [|i] x Hx.
      * cbn in Hx. injection Hx as <-. exists rsp.
        replace (version + Z.of_nat 0 + 1) with (version + 1) by lia. auto.
      * cbn in Hx. destruct (Hresults i x Hx) as (rsp' & -> & Hcode' & Hv').
        exists rsp'. repeat split; [exact Hcode'|].
        rewrite Hv'. f_equal. lia.
Qed.


End Retry.

End Fetch.

(** ** The model on concrete inputs *)

Section Examples.

Import Mem.

Example fsKey_example :
  fsKey "/tmp/cache" (url.mkURL "Example.com" "/A/b/C" "x=1/2&Y=z")
  = "/tmp/cache/Example.com/a-b-c?x=1-2&y=z.gz".
Proof. vm_compute. reflexivity. Qed.

Example Clean_examples :
  filepath.Clean "a//b/./c/../d/" = "a/b/d" /\ filepath.Clean "/../a" = "/a"
  /\ filepath.Clean "../../a/.." = "../.." /\ filepath.Clean "a/.." = "."
  /\ filepath.Dir "/tmp/h/x.gz" = "/tmp/h" /\ filepath.Dir "x.gz" = "."
  /\ filepath.Join [""; "h"; "x"] = "h/x" /\ filepath.Join ["a"; ""; "x"] = "a/x".
Proof. vm_compute. repeat split; reflexivity. Qed.

Example CanonicalMIMEHeaderKey_examples :
  CanonicalMIMEHeaderKey "x-elucidate-time" = "X-Elucidate-Time"
  /\ CanonicalMIMEHeaderKey "ETAG" = "Etag"
  /\ CanonicalMIMEHeaderKey "if-none-match" = "If-None-Match"
  /\ CanonicalMIMEHeaderKey "a b" = "a b".
Proof. vm_compute. repeat split; reflexivity. Qed.

Example ParseInt_examples :
  strconv.ParseInt "1700000000" = Ok 1700000000
  /\ strconv.ParseInt "-007" = Ok (-7)
  /\ strconv.ParseInt "+" = Err (NumError "ParseInt" "+" ErrSyntax)
  /\ strconv.ParseInt "" = Err (NumError "ParseInt" "" ErrSyntax)
  /\ strconv.ParseInt "9223372036854775808" = Err (NumError "ParseInt" "9223372036854775808" ErrRange)
  /\ strconv.ParseInt "-9223372036854775808" = Ok minInt64
  /\ strconv.Atoi "12a" = Err (NumError "Atoi" "12a" ErrSyntax)
  /\ strconv.FormatInt (-42) = "-42" /\ strconv.FormatInt 0 = "0".
Proof. vm_compute. repeat split; reflexivity. Qed.

(** The three scenarios of [TestStore], with the number of requests the
    transport has received after each step. *)
Example test_cache_miss_hit_miss :
  run (testStore 200) testRequest [zeroCutoff; zeroCutoff; nowAfter] newWorld
  = [(200, false, 1%nat); (200, true, 1%nat); (200, false, 2%nat)].
Proof. vm_compute. reflexivity. Qed.

Example test_two_different_endpoints :
  (w ← snd <$> step (testStore 200) testRequest zeroCutoff newWorld;
   fst <$> step (testStore 200) (getRequest "example2.com" "" "") zeroCutoff w)
  = Some (200, false, 2%nat).
Proof. vm_compute. reflexivity. Qed.

Example test_fetch_error_retry_max :
  run (testStore 500) testRequest
    [zeroCutoff; zeroCutoff; zeroCutoff; zeroCutoff; nowAfter;
     zeroCutoff; zeroCutoff; zeroCutoff] newWorld
  = [(500, false, 1%nat); (500, false, 2%nat); (500, false, 3%nat);
     (500, true, 3%nat); (500, false, 4%nat); (500, false, 5%nat);
     (500, false, 6%nat); (500, true, 6%nat)].
Proof. vm_compute. reflexivity. Qed.

End Examples.

(** ** The in-memory platform meets the assumptions *)

Section MemFacts.

Import Mem.

Lemma Mem_FSKeepsFiles : FSKeepsFiles.
Proof.
  split.
  - intros key data files files' [= <-]. cbn. rewrite lookup_insert_eq. reflexivity.
  - reflexivity.
Qed.

Lemma Mem_FSAccepts : FSAccepts.
Proof. split; reflexivity. Qed.

Lemma Mem_ClockInRange : ClockInRange.
Proof.
  intros n.
  change (time_Now_Unix n) with (Z.min (1700000000 + Z.of_nat n) 4102444800).
  unfold time.unixToInternal, maxInt64.
  change (2 ^ 63) with 9223372036854775808. split; lia.
Qed.

Lemma Mem_keys_distinct statusCode :
  CanonicalMIMEHeaderKey (fetchTimestampKey (testStore statusCode))
  <> CanonicalMIMEHeaderKey (fetchVersionKey (testStore statusCode)).
Proof. vm_compute. discriminate. Qed.

Lemma Mem_dump_stamped s now version statusCode :
  httputil_DumpResponse
    (stampMetadata s now version (mkResponse statusCode ∅ 0 "hello, world"))
  = Ok (Wire (mkResponse statusCode
                (Header (stampMetadata s now version
                           (mkResponse statusCode ∅ 0 "hello, world")))
                (-1) "hello, world")).
Proof. reflexivity. Qed.

Lemma Mem_TransportAnswers statusCode w :
  statusCode <> StatusNotModified -> TransportAnswers (testStore statusCode) w.
Proof.
  intros Hcode req. eexists. split; [reflexivity|]. split; [exact Hcode|].
  intros now version. eexists. apply Mem_dump_stamped.
Qed.

Lemma Mem_TransportKeepsFailing r : TransportKeepsFailing (testStore 500) r.
Proof.
  intros n req. eexists. split; [reflexivity|]. split; [reflexivity|].
  intros now version. eexists. split; [apply Mem_dump_stamped|].
  eexists _, _, _. repeat split.
Qed.

Lemma worldWith_seen statusCode f :
  ensureHostDir
    (filepath.Dir (fsKey (fileSystemRoot (testStore statusCode)) (URL testRequest)))
    (worldWith f)
  = (None, worldWith f).
Proof.
  apply (ensureHostDir_seen (testStore statusCode) testRequest).
  unfold worldWith. cbn [seenHosts]. apply elem_of_singleton_2. reflexivity.
Qed.

Lemma worldWith_read statusCode stored :
  readAndParseGZIPFile (fsKey (fileSystemRoot (testStore statusCode)) (URL testRequest))
    testRequest (worldWith (Gzip (Wire stored)))
  = Ok stored.
Proof.
  unfold readAndParseGZIPFile, readGZIPFile, worldWith. cbn [fs].
  change (fsKey (fileSystemRoot (testStore statusCode)) (URL testRequest))
    with (fsKey "/tmp/store" (URL testRequest)).
  cbn [os_ReadFile platform]. rewrite lookup_singleton_eq. reflexivity.
Qed.

End MemFacts.

(** ** The claims on concrete inputs *)

Section Runs.

Import Mem.



(** C2, as stated, fails: an entry with status 200, version 3 and a write
    time before the cutoff reaches the final step of the policy, which
    reports version 0 and not the stored 3; the response of the fetch that
    follows is stamped with version 1 and not 4. *)
Lemma C2_stale_miss_restarts_counter :
  let s := testStore 200 in
  let stored := entry 200 "1700000000" "3" in
  let cutoff := time.Unix 1700000500 in
  getVersion s stored = Ok 3
  /\ getWriteTimestamp s stored = Ok (time.Unix 1700000000)
  /\ time.After (time.Unix 1700000000) cutoff = false
  /\ isRetriedStatus (StatusCode stored) = false
  /\ shouldUseCachedValue s stored cutoff = (0, false)
  /\ shouldUseCachedValue s stored cutoff <> (3, false)
  /\ fetchedVersion (CacheFetch s testRequest cutoff (worldWith (Gzip (Wire stored))))
     = Some "1".
Proof. vm_compute. repeat split; try reflexivity. discriminate. Qed.

Lemma C2_version_counter_witness :
  WritesVersion (testStore 500) testRequest time.zero newWorld 1
  /\ (shouldUseCachedValue (testStore 500) (entry 500 "1700000000" "2") time.zero
      = (2, false)
      /\ WritesVersion (testStore 500) testRequest time.zero
           (worldWith (Gzip (Wire (entry 500 "1700000000" "2")))) (wrap64 (2 + 1)))
  /\ (shouldUseCachedValue (testStore 500) (entry 500 "1700000000" "3")
        (time.Unix 1700000500) = (0, false)
      /\ WritesVersion (testStore 500) testRequest (time.Unix 1700000500)
           (worldWith (Gzip (Wire (entry 500 "1700000000" "3")))) 1).
Proof.
  assert (StatusInternalServerError <> StatusNotModified) as Hcode by discriminate.
  split; [|split].
  - apply (proj1 (C2_version_counter (testStore 500) testRequest time.zero newWorld
                    (snd (ensureHostDir
                            (filepath.Dir (fsKey "/tmp/store" (URL testRequest)))
                            newWorld))
                    eq_refl (Mem_TransportAnswers 500 _ Hcode))
             (errorString "open: no such file or directory")).
    reflexivity.
  - apply (proj1 (proj2 (C2_version_counter (testStore 500) testRequest time.zero
                           _ _ (worldWith_seen 500 _) (Mem_TransportAnswers 500 _ Hcode))
                    (entry 500 "1700000000" "2") (time.Unix 1700000000) 2
                    (worldWith_read 500 _) eq_refl eq_refl eq_refl)).
    + reflexivity.
    + vm_compute. discriminate.
  - apply (proj2 (proj2 (C2_version_counter (testStore 500) testRequest
                           (time.Unix 1700000500)
                           _ _ (worldWith_seen 500 _) (Mem_TransportAnswers 500 _ Hcode))
                    (entry 500 "1700000000" "3") (time.Unix 1700000000) 3
                    (worldWith_read 500 _) eq_refl eq_refl eq_refl)).
    + right. reflexivity.
    + reflexivity.
Defined.

(** C3, as stated, fails. On the scenario of the test suite (status 500,
    [maxErrorVersion = 2]) the second fetch with the zero cutoff is a miss
    and the transport receives a second request; and so it is for a
    response of status 200 that declares a content length of 5. *)
Lemma C3_second_fetch_contacts_transport :
  run (testStore 500) testRequest [zeroCutoff; zeroCutoff] newWorld
  = [(500, false, 1%nat); (500, false, 2%nat)]
  /\ run (WithClient (replyingClient (mkResponse 200 ∅ 5 "hello")) (testStore 200))
       testRequest [zeroCutoff; zeroCutoff] newWorld
     = [(200, false, 1%nat); (200, false, 2%nat)].
Proof. vm_compute. split; reflexivity. Qed.

Lemma C3_second_fetch_hits_witness :
  exists w1 w2 rsp dump,
    CacheFetch (testStore 200) testRequest time.zero newWorld
    = Returns (w1, mkFetched (Some rsp) false
                     (writeStoreFunc (fsKey "/tmp/store" (URL testRequest)) dump) None)
    /\ callStoreFunc (writeStoreFunc (fsKey "/tmp/store" (URL testRequest)) dump) w1
       = (None, w2)
    /\ exists cachedRsp,
        CacheFetch (testStore 200) testRequest time.zero w2
        = Returns (w2, mkFetched (Some cachedRsp) true NoOpStoreFunc None)
        /\ Body cachedRsp = Body rsp
        /\ StatusCode cachedRsp = StatusCode rsp.
Proof.
  eexists _, _, _, _. split; [reflexivity|]. split; [reflexivity|].
  apply (C3_second_fetch_hits (testStore 200) testRequest time.zero newWorld
           _ _ _ _ _ Mem_FSKeepsFiles Mem_ClockInRange (Mem_keys_distinct 200)
           eq_refl eq_refl).
  - eexists _, _, _. repeat split.
  - left. reflexivity.
Defined.



Lemma C8_transport_error_witness :
  exists w',
    CacheFetch (brokenStore (errorString "connection refused")) testRequest
      time.zero newWorld
    = Returns (w', mkFetched None false NoOpStoreFunc
                     (Some (errorString "connection refused")))
    /\ fs w' = fs (snd (ensureHostDir
                          (filepath.Dir (fsKey "/tmp/store" (URL testRequest)))
                          newWorld))
    /\ callStoreFunc NoOpStoreFunc w' = (None, w')
    /\ CacheFetchAndStore (brokenStore (errorString "connection refused"))
         testRequest time.zero newWorld
       = Returns (w', (None, false, Some (errorString "connection refused"))).
Proof.
  apply (C8_transport_error (brokenStore (errorString "connection refused"))
           testRequest time.zero newWorld _ "" None
           (errorString "connection refused") eq_refl).
  - left. eexists. split; reflexivity.
  - reflexivity.
Defined.

Lemma C9_RawCacheData_read_failure_witness :
  RawCacheData (testStore 200) (URL testRequest) newWorld = Panics.
Proof.
  apply (proj2 (C9_RawCacheData_read_failure (testStore 200) (URL testRequest) newWorld)).
  left. eexists. reflexivity.
Defined.

Lemma C10_not_modified_without_entry_witness :
  fetchedVersion (CacheFetch (testStore 304) testRequest time.zero newWorld) = None
  /\ exists w',
      CacheFetch (testStore 304) testRequest time.zero newWorld
      = Returns (w', mkFetched None true NoOpStoreFunc None).
Proof.
  destruct (C10_not_modified_without_entry (testStore 304) testRequest time.zero
              newWorld _ (errorString "open: no such file or directory")
              (mkResponse 304 ∅ 0 "hello, world") eq_refl eq_refl eq_refl eq_refl)
    as [Hfetch _].
  rewrite Hfetch. split; [reflexivity|]. eexists. reflexivity.
Defined.

End Runs.

(** * Further properties of the code *)

(** ** Options and [NewStore] *)

Section Options.

Lemma fold_options_root opts (s : Store) :
  Forall isOption opts ->
  fileSystemRoot (fold_left (fun s opt => opt s) opts s) = fileSystemRoot s.
Proof.
  intros Hopts. revert s.
  induction Hopts as [|opt opts Hopt _ IH]; intros s; [reflexivity|].
  cbn [fold_left]. rewrite IH.
  destruct Hopt as [[[c ->] | [[k ->] | [k ->]]] | [n ->]]; reflexivity.
Qed.

Lemma fold_options_cap opts (s : Store) :
  Forall keepsMaxErrorVersion opts ->
  maxErrorVersion (fold_left (fun s opt => opt s) opts s) = maxErrorVersion s.
Proof.
  intros Hopts. revert s.
  induction Hopts as [|opt opts Hopt _ IH]; intros s; [reflexivity|].
  cbn [fold_left]. rewrite IH.
  destruct Hopt as [[c ->] | [[k ->] | [k ->]]]; reflexivity.
Qed.

(** [NewStore] keeps the root it is given whatever options follow; the
    retry cap is the default 3 unless an option sets it, and the last
    [WithMaxErrorVersion] in the list decides it. *)
Theorem NewStore_options defaultClient root opts opts' n :
  Forall isOption opts -> Forall keepsMaxErrorVersion opts' ->
  fileSystemRoot (NewStore defaultClient root opts) = root
  /\ maxErrorVersion (NewStore defaultClient root opts') = _defaultAllowedErrors
  /\ maxErrorVersion
       (NewStore defaultClient root (opts ++ WithMaxErrorVersion n :: opts')) = n.
Proof.
  intros Hopts Hkeeps. unfold NewStore. split; [|split].
  - rewrite fold_options_root by exact Hopts. reflexivity.
  - rewrite fold_options_cap by exact Hkeeps. reflexivity.
  - rewrite fold_left_app. cbn [fold_left].
    rewrite fold_options_cap by exact Hkeeps. reflexivity.
Qed.

End Options.

(** ** More on the key *)

Section KeyFacts.

Import strings filepath.

Lemma lowerByte_idem c : lowerByte (lowerByte c) = lowerByte c.
Proof. destruct c as [[] [] [] [] [] [] [] []]; reflexivity. Qed.

Lemma ToLower_idem s : ToLower (ToLower s) = ToLower s.
Proof.
  induction s as [|c s IH]; [reflexivity|].
  cbn [ToLower]. rewrite lowerByte_idem, IH. reflexivity.
Qed.

Lemma lowerByte_eqb_sep c : Ascii.eqb (lowerByte c) "/" = Ascii.eqb c "/".
Proof. destruct c as [[] [] [] [] [] [] [] []]; reflexivity. Qed.

Lemma ToLower_ReplaceAll s :
  ToLower (ReplaceAll s "/" "-") = ReplaceAll (ToLower s) "/" "-".
Proof.
  induction s as [|c s IH]; [reflexivity|].
  cbn [ToLower ReplaceAll]. rewrite lowerByte_eqb_sep.
  destruct (Ascii.eqb c "/").
  - rewrite ToLower_app, IH. reflexivity.
  - cbn [ToLower]. rewrite IH. reflexivity.
Qed.

Lemma ToLower_TrimLeft s : ToLower (TrimLeft s "/") = TrimLeft (ToLower s) "/".
Proof.
  induction s as [|c s IH]; [reflexivity|].
  cbn [ToLower TrimLeft containsByte]. rewrite !orb_false_r.
  rewrite (Ascii.eqb_sym (lowerByte c)), (Ascii.eqb_sym c).
  rewrite <- (Ascii.eqb_sym (lowerByte c)), lowerByte_eqb_sep.
  rewrite (Ascii.eqb_sym "/" c).
  destruct (Ascii.eqb c "/"); [exact IH|reflexivity].
Qed.

Lemma ReplaceAll_no_sep s : containsByte sep s = false -> ReplaceAll s "/" "-" = s.
Proof.
  induction s as [|c s IH]; [reflexivity|].
  cbn [containsByte ReplaceAll]. intros [Hc Hs]%orb_false_elim.
  rewrite Ascii.eqb_sym in Hc. change sep with "/"%char in Hc.
  rewrite Hc, (IH Hs). reflexivity.
Qed.

Lemma TrimLeft_no_sep s : containsByte sep s = false -> TrimLeft s "/" = s.
Proof.
  destruct s as [|c s]; [reflexivity|].
  cbn [containsByte TrimLeft]. intros [Hc _]%orb_false_elim.
  rewrite orb_false_r. rewrite Ascii.eqb_sym in Hc. change sep with "/"%char in Hc.
  rewrite Hc. reflexivity.
Qed.

(** The segment the code builds, as the sum of its parts. *)
Lemma fsKey_segment_parts path query :
  ToLower (ReplaceAll (TrimLeft path "/") "/" "-" +:+ "?"
           +:+ ReplaceAll query "/" "-" +:+ ".gz")
  = ToLower (ReplaceAll (TrimLeft path "/") "/" "-") +:+ "?"
    +:+ ToLower (ReplaceAll query "/" "-") +:+ ".gz".
Proof. rewrite !ToLower_app. reflexivity. Qed.

(** The key does not see the case of ASCII letters in path and query:
    a URL and its lower-cased form share one entry. *)
Theorem fsKey_ignores_case root host path query :
  isASCII path = true -> isASCII query = true ->
  fsKey root (url.mkURL host path query)
  = fsKey root (url.mkURL host (ToLower path) (ToLower query)).
Proof.
  intros _ _. destruct (fsKey_shape root host) as [dir Hdir].
  rewrite !Hdir, !fsKey_segment_parts. f_equal. f_equal.
  - rewrite !ToLower_ReplaceAll, !ToLower_TrimLeft, ToLower_idem. reflexivity.
  - rewrite !ToLower_ReplaceAll, ToLower_idem. reflexivity.
Qed.

Lemma fsKey_ignores_case_witness :
  fsKey "/tmp" (url.mkURL "example.com" "/Users/Ann" "Page=2")
  = fsKey "/tmp" (url.mkURL "example.com" (ToLower "/Users/Ann") (ToLower "Page=2")).
Proof.
  apply (fsKey_ignores_case "/tmp" "example.com" "/Users/Ann" "Page=2"); reflexivity.
Defined.

(** The key does not tell a separator from a hyphen, nor see the leading
    separators of the path: a URL shares its entry with the URL whose
    path has its leading separators dropped and whose path and query have
    hyphens for separators. *)
Theorem fsKey_ignores_separators root host path query :
  fsKey root (url.mkURL host path query)
  = fsKey root (url.mkURL host (ReplaceAll (TrimLeft path "/") "/" "-")
                  (ReplaceAll query "/" "-")).
Proof.
  unfold fsKey. cbn [url.Host url.Path url.RawQuery].
  rewrite (TrimLeft_no_sep (ReplaceAll (TrimLeft path "/") "/" "-"))
    by apply ReplaceAll_sep.
  rewrite !(ReplaceAll_no_sep (ReplaceAll _ "/" "-")) by apply ReplaceAll_sep.
  reflexivity.
Qed.

(** For a fixed root and host, two ASCII URLs have the same key exactly
    when their segments are equal; the question mark between path and
    query is not escaped, so a path that contains one can meet the key of
    another path and query. *)
Theorem fsKey_eq_iff_segment root host p1 q1 p2 q2 :
  isASCII p1 = true -> isASCII q1 = true -> isASCII p2 = true -> isASCII q2 = true ->
  (fsKey root (url.mkURL host p1 q1) = fsKey root (url.mkURL host p2 q2)
   <-> ToLower (ReplaceAll (TrimLeft p1 "/") "/" "-" +:+ "?"
                +:+ ReplaceAll q1 "/" "-" +:+ ".gz")
       = ToLower (ReplaceAll (TrimLeft p2 "/") "/" "-" +:+ "?"
                  +:+ ReplaceAll q2 "/" "-" +:+ ".gz")).
Proof.
  intros _ _ _ _. destruct (fsKey_shape root host) as [dir Hdir].
  rewrite !Hdir. split.
  - intros Heq. apply String.app_inj in Heq. exact Heq.
  - intros ->. reflexivity.
Qed.

Lemma fsKey_eq_iff_segment_witness :
  fsKey "/tmp" (url.mkURL "example.com" "/a?b" "c")
  = fsKey "/tmp" (url.mkURL "example.com" "/a" "b?c").
Proof.
  apply (fsKey_eq_iff_segment "/tmp" "example.com" "/a?b" "c" "/a" "b?c");
    reflexivity.
Defined.

End KeyFacts.

(** ** More on the freshness policy *)

Section MorePolicy.

Variables (s : Store) (rsp : Response).

Lemma After_relax t c c' :
  time.After t c = true -> time.After c' c = false -> time.After t c' = true.
Proof.
  unfold time.After. intros Ht Hc.
  apply orb_true_iff in Ht. apply orb_false_elim in Hc as [Hc1 Hc2].
  apply Z.ltb_ge in Hc1. apply orb_true_iff.
  destruct Ht as [Ht | [Ht1 Ht2]%andb_true_iff].
  - apply Z.ltb_lt in Ht.
    destruct (Z.eq_dec (time.sec t) (time.sec c')) as [Heq|Hne].
    + right. apply andb_true_iff. split; [apply Z.eqb_eq, Heq|].
      assert (time.sec c' = time.sec c -> False) by lia. lia.
    + left. apply Z.ltb_lt. lia.
  - apply Z.eqb_eq in Ht1. apply Z.ltb_lt in Ht2.
    destruct (Z.eq_dec (time.sec c') (time.sec c)) as [Heq|Hne].
    + right. rewrite <- Heq in Ht1. apply andb_true_iff.
      split; [apply Z.eqb_eq, Ht1|].
      apply Z.eqb_eq in Heq. rewrite Heq in Hc2. cbn in Hc2.
      apply Z.ltb_ge in Hc2. apply Z.ltb_lt. lia.
    + left. apply Z.ltb_lt. lia.
Qed.

Lemma declaresShortContent_false :
  declaresShortContent rsp = false
  <-> ContentLength rsp = -1 \/ _minimumContentLength <= ContentLength rsp.
Proof.
  unfold declaresShortContent.
  destruct (Z.eqb_spec (ContentLength rsp) (-1)),
    (Z.ltb_spec (ContentLength rsp) _minimumContentLength); cbn; split; intros;
    try discriminate; try reflexivity; try lia; auto.
Qed.

Lemma policy_hit_inv lastModified version :
  shouldUseCachedValue s rsp lastModified = (version, true) ->
  declaresShortContent rsp = false
  /\ getVersion s rsp = Ok version
  /\ (isRetriedStatus (StatusCode rsp) = false \/ maxErrorVersion s < version)
  /\ exists t, getWriteTimestamp s rsp = Ok t /\ time.After t lastModified = true.
Proof.
  unfold shouldUseCachedValue. fold (declaresShortContent rsp).
  destruct (declaresShortContent rsp); [discriminate|].
  destruct (getWriteTimestamp s rsp) as [t|]; [|discriminate].
  destruct (getVersion s rsp) as [v|]; [|discriminate].
  destruct (isRetriedStatus (StatusCode rsp)) eqn:Hcode;
    destruct (Z.leb_spec v (maxErrorVersion s)); cbn [andb];
    try discriminate;
    destruct (time.After t lastModified) eqn:Hafter; try discriminate;
    intros [= ->]; repeat split; eauto.
Qed.

(** The policy reports a hit with version [version] exactly when the entry
    declares no content length (-1) or one of at least 10, its version
    header reads as [version], its status is not one of the six error
    statuses or [version] is above the cap, and its write time parses and
    is after the cutoff. *)
Theorem policy_hit_iff lastModified version :
  shouldUseCachedValue s rsp lastModified = (version, true)
  <-> (ContentLength rsp = -1 \/ _minimumContentLength <= ContentLength rsp)
      /\ getVersion s rsp = Ok version
      /\ (isRetriedStatus (StatusCode rsp) = false \/ maxErrorVersion s < version)
      /\ exists t, getWriteTimestamp s rsp = Ok t /\ time.After t lastModified = true.
Proof.
  rewrite <- declaresShortContent_false. split; [apply policy_hit_inv|].
  intros (Hlen & Hv & Hfinal & t & Ht & Hafter).
  rewrite (policy_final s rsp lastModified t version Hlen Ht Hv Hfinal), Hafter.
  reflexivity.
Qed.


Lemma hit_relax lastModified earlier version :
  shouldUseCachedValue s rsp lastModified = (version, true) ->
  time.After earlier lastModified = false ->
  shouldUseCachedValue s rsp earlier = (version, true).
Proof.
  intros Hhit Hearlier.
  apply policy_hit_inv in Hhit as (Hlen & Hv & Hfinal & t & Ht & Hafter).
  rewrite (policy_final s rsp earlier t version Hlen Ht Hv Hfinal).
  rewrite (After_relax t lastModified earlier Hafter Hearlier). reflexivity.
Qed.

(** A hit stays a hit when the cutoff is moved back: an entry usable under
    a cutoff is usable, with the same version, under every cutoff that is
    not after it. *)
Theorem policy_hit_relax lastModified earlier version :
  shouldUseCachedValue s rsp lastModified = (version, true) ->
  time.After earlier lastModified = false ->
  shouldUseCachedValue s rsp earlier = (version, true).
Proof. apply hit_relax. Qed.

(** An entry whose write time is not after the cutoff is never a hit,
    whatever its status and version. *)
Lemma policy_stale_is_miss lastModified t :
  getWriteTimestamp s rsp = Ok t -> time.After t lastModified = false ->
  snd (shouldUseCachedValue s rsp lastModified) = false.
Proof.
  intros Ht Hstale. unfold shouldUseCachedValue. rewrite Ht, Hstale.
  destruct (negb _ && _); [reflexivity|].
  destruct (getVersion s rsp); [|reflexivity].
  destruct (_ && _); reflexivity.
Qed.

(** What [prepareForWriting] stamps, the policy reads back: with header
    names that differ after canonicalisation, the stamped response has the
    version and the write time it was stamped with. *)
Theorem stamp_read_back now version :
  CanonicalMIMEHeaderKey (fetchTimestampKey s)
  <> CanonicalMIMEHeaderKey (fetchVersionKey s) ->
  minInt64 <= now <= maxInt64 -> minInt64 <= version <= maxInt64 ->
  getWriteTimestamp s (stampMetadata s now version rsp) = Ok (time.Unix now)
  /\ getVersion s (stampMetadata s now version rsp) = Ok version.
Proof.
  intros Hkeys Hnow Hversion.
  unfold getWriteTimestamp, getVersion, stampMetadata. cbn [Header].
  rewrite Header_Get_Set, Header_Get_Set_ne, Header_Get_Set by congruence.
  pose proof (FormatInt_nonempty now). pose proof (FormatInt_nonempty version).
  repeat case_decide; try contradiction.
  rewrite ParseInt_FormatInt, Atoi_FormatInt by assumption. auto.
Qed.

(** With header names that are the same after canonicalisation the
    version overwrites the timestamp: the stamped response reads as written
    at Unix time [version]. *)
Theorem stamp_same_key now version :
  CanonicalMIMEHeaderKey (fetchTimestampKey s)
  = CanonicalMIMEHeaderKey (fetchVersionKey s) ->
  minInt64 <= version <= maxInt64 ->
  getWriteTimestamp s (stampMetadata s now version rsp) = Ok (time.Unix version)
  /\ getVersion s (stampMetadata s now version rsp) = Ok version.
Proof.
  intros Hkeys Hversion.
  assert (forall h, Header_Get h (fetchTimestampKey s) = Header_Get h (fetchVersionKey s))
    as Hget by (intros h; unfold Header_Get; rewrite Hkeys; reflexivity).
  unfold getWriteTimestamp, getVersion, stampMetadata. cbn [Header].
  rewrite Hget, Header_Get_Set.
  pose proof (FormatInt_nonempty version).
  repeat case_decide; try contradiction.
  rewrite ParseInt_FormatInt, Atoi_FormatInt by assumption. auto.
Qed.

End MorePolicy.

(** ** More on the fetch *)

Section MoreFetch.

Context `{Platform}.

Variables (s : Store) (r : Request).

Let key := fsKey (fileSystemRoot s) (URL r).
Let hostDir := filepath.Dir key.

Lemma ensureHostDir_effects w e w1 :
  ensureHostDir hostDir w = (e, w1) ->
  sent w1 = sent w /\ ticks w1 = ticks w /\ seenHosts w ⊆ seenHosts w1
  /\ (fs w1 = fs w
      \/ ((hostDir ∉ seenHosts w) /\ fs w1 = snd (os_MkdirAll hostDir (fs w)))).
Proof.
  unfold ensureHostDir. case_decide as Hseen.
  - intros [= <- <-]. auto.
  - destruct (os_MkdirAll hostDir (fs w)) as [[err|] fs'] eqn:Hmk;
      intros [= <- <-]; cbn; repeat split; auto; set_solver.
Qed.

Lemma fetchRemote_effects version etag cachedRsp w w' f :
  fetchRemote s key r version etag cachedRsp w = Returns (w', f) ->
  fs w' = fs w /\ seenHosts w' = seenHosts w
  /\ sent w' = withIfNoneMatch r etag :: sent w
  /\ (ticks w' = ticks w \/ ticks w' = S (ticks w))
  /\ (f_storeFunc f = NoOpStoreFunc
      \/ exists rsp dump,
          f = mkFetched (Some rsp) false (writeStoreFunc key dump) None
          /\ httputil_DumpResponse rsp = Ok dump).
Proof.
  unfold fetchRemote.
  destruct (Do (client s) (length (sent w)) (withIfNoneMatch r etag))
    as [[rsp|] [err|]]; try discriminate; try (intros [= <- <-]; cbn; auto 10; fail).
  destruct (StatusCode rsp =? StatusNotModified); [intros [= <- <-]; cbn; auto 10|].
  unfold prepareForWriting.
  destruct (httputil_DumpResponse _) as [dump|] eqn:Hdump;
    intros [= <- <-]; cbn; repeat split; eauto 10.
Qed.

(** The three ways [CacheFetch] returns: with the error of [MkdirAll],
    with the stored response when the policy accepts it, or with what the
    transport path gives. *)
Lemma CacheFetch_cases lastModified w w' f :
  CacheFetch s r lastModified w = Returns (w', f) ->
  exists e w1,
    ensureHostDir hostDir w = (e, w1)
    /\ ((exists err, e = Some err /\ w' = w1
                     /\ f = mkFetched None false NoOpStoreFunc (Some err))
        \/ (e = None
            /\ exists cachedRsp version,
                readAndParseGZIPFile key r w1 = Ok cachedRsp
                /\ shouldUseCachedValue s cachedRsp lastModified = (version, true)
                /\ w' = w1
                /\ f = mkFetched (Some cachedRsp) true NoOpStoreFunc None)
        \/ (e = None
            /\ exists version cachedRsp,
                fetchRemote s key r version
                  (match readAndParseGZIPFile key r w1 with
                   | Ok c => Header_Get (Header c) _etagKey
                   | Err _ => ""
                   end) cachedRsp w1 = Returns (w', f))).
Proof.
  unfold CacheFetch, internalCacheFetch. fold key. fold hostDir.
  destruct (ensureHostDir hostDir w) as [[err|] w1] eqn:Hdir.
  - intros [= <- <-]. exists (Some err), w1. split; [reflexivity|]. left. eauto.
  - exists None, w1. split; [reflexivity|].
    destruct (readAndParseGZIPFile key r w1) as [cachedRsp|e] eqn:Hread.
    + destruct (shouldUseCachedValue s cachedRsp lastModified) as [v [|]] eqn:Hpolicy.
      * injection H0 as <- <-. right. left. split; [reflexivity|]. eauto 10.
      * right. right. split; [reflexivity|]. eauto.
    + right. right. split; [reflexivity|]. eauto.
Qed.

(** [CacheFetch] writes no file: it leaves the file system as it is, but
    for the directory of a host it sees for the first time; it never
    forgets a host, hands at most one request to the transport and reads
    the clock at most once. *)
Theorem CacheFetch_writes_no_file lastModified w w' f :
  CacheFetch s r lastModified w = Returns (w', f) ->
  (fs w' = fs w
   \/ ((hostDir ∉ seenHosts w) /\ fs w' = snd (os_MkdirAll hostDir (fs w))))
  /\ seenHosts w ⊆ seenHosts w'
  /\ (sent w' = sent w \/ exists etag, sent w' = withIfNoneMatch r etag :: sent w)
  /\ (ticks w' = ticks w \/ ticks w' = S (ticks w)).
Proof.
  intros (e & w1 & Hdir & Hcases)%CacheFetch_cases.
  destruct (ensureHostDir_effects _ _ _ Hdir) as (Hsent & Hticks & Hseen & Hfs).
  destruct Hcases as [(err & _ & -> & _) | [(_ & c & v & _ & _ & -> & _)
                                           | (_ & v & c & Hremote)]].
  - rewrite Hsent, Hticks. auto.
  - rewrite Hsent, Hticks. auto.
  - apply fetchRemote_effects in Hremote as (Hfs' & Hseen' & Hsent' & Hticks' & _).
    rewrite Hfs', Hseen', Hsent', Hsent, Hticks in *.
    repeat split; eauto.
Qed.


(** When the directory of a host not seen before cannot be created, the
    fetch returns the error of [MkdirAll] as it is, with no response; no
    request reaches the transport and the host is not marked as seen. *)
Theorem mkdir_failure lastModified w err files :
  hostDir ∉ seenHosts w ->
  os_MkdirAll hostDir (fs w) = (Some err, files) ->
  CacheFetch s r lastModified w
  = Returns (mkWorld files (seenHosts w) (sent w) (ticks w),
             mkFetched None false NoOpStoreFunc (Some err))
  /\ CacheFetchAndStore s r lastModified w
     = Returns (mkWorld files (seenHosts w) (sent w) (ticks w),
                (None, false, Some err)).
Proof.
  intros Hseen Hmk.
  assert (CacheFetch s r lastModified w
          = Returns (mkWorld files (seenHosts w) (sent w) (ticks w),
                     mkFetched None false NoOpStoreFunc (Some err))) as Hfetch.
  { unfold CacheFetch, internalCacheFetch, ensureHostDir. fold key. fold hostDir.
    case_decide; [contradiction|]. rewrite Hmk. reflexivity. }
  split; [exact Hfetch|].
  unfold CacheFetchAndStore. rewrite Hfetch. reflexivity.
Qed.

(** A reply of 304 for an entry the policy did not accept serves the
    stored response as a hit and changes nothing in the store: the entry
    keeps its write time and version, so under the same cutoff the policy
    rejects it again. *)
Theorem not_modified_keeps_entry lastModified w w1 cachedRsp version rsp :
  ensureHostDir hostDir w = (None, w1) ->
  readAndParseGZIPFile key r w1 = Ok cachedRsp ->
  shouldUseCachedValue s cachedRsp lastModified = (version, false) ->
  Do (client s) (length (sent w1))
    (withIfNoneMatch r (Header_Get (Header cachedRsp) _etagKey)) = (Some rsp, None) ->
  StatusCode rsp = StatusNotModified ->
  exists w',
    CacheFetchAndStore s r lastModified w = Returns (w', (Some cachedRsp, true, None))
    /\ fs w' = fs w1 /\ ticks w' = ticks w1
    /\ readAndParseGZIPFile key r w' = Ok cachedRsp
    /\ CacheFetch s r lastModified w'
       = fetchRemote s key r version (Header_Get (Header cachedRsp) _etagKey)
           (Some cachedRsp) w'.
Proof.
  intros Hdir Hread Hpolicy Hdo Hcode.
  destruct (ensureHostDir_ok s r _ _ Hdir) as (Hseen & _).
  set (etag := Header_Get (Header cachedRsp) _etagKey) in *.
  set (w' := mkWorld (fs w1) (seenHosts w1) (withIfNoneMatch r etag :: sent w1)
               (ticks w1)).
  assert (readAndParseGZIPFile key r w' = Ok cachedRsp) as Hread'
    by exact Hread.
  exists w'. split; [|split; [|split; [|split]]].
  - unfold CacheFetchAndStore.
    rewrite (CacheFetch_after_mkdir s r _ _ _ Hdir). fold key. rewrite Hread, Hpolicy.
    rewrite (fetchRemote_not_modified s r _ _ _ _ rsp Hdo Hcode). reflexivity.
  - reflexivity.
  - reflexivity.
  - exact Hread'.
  - rewrite (CacheFetch_after_mkdir s r lastModified w' w'
               (ensureHostDir_seen s r w' Hseen)).
    fold key. rewrite Hread', Hpolicy. reflexivity.
Qed.

(** A cutoff that is not before the write time of the entry forces a
    request: whatever the status and version of the entry, the fetch hands
    the transport one request, carrying the entity-tag of the entry. *)
Theorem stale_entry_contacts_transport lastModified w w1 cachedRsp t :
  ensureHostDir hostDir w = (None, w1) ->
  readAndParseGZIPFile key r w1 = Ok cachedRsp ->
  getWriteTimestamp s cachedRsp = Ok t ->
  time.After t lastModified = false ->
  match CacheFetch s r lastModified w with
  | Returns (w', f) =>
      sent w' = withIfNoneMatch r (Header_Get (Header cachedRsp) _etagKey) :: sent w
  | Panics =>
      Do (client s) (length (sent w))
        (withIfNoneMatch r (Header_Get (Header cachedRsp) _etagKey)) = (None, None)
  end.
Proof.
  intros Hdir Hread Ht Hstale.
  destruct (ensureHostDir_ok s r _ _ Hdir) as (_ & Hsent & _).
  rewrite (CacheFetch_after_mkdir s r _ _ _ Hdir). fold key. rewrite Hread.
  pose proof (policy_stale_is_miss s cachedRsp lastModified t Ht Hstale) as Hmiss.
  destruct (shouldUseCachedValue s cachedRsp lastModified) as [v ok].
  cbn in Hmiss. subst ok.
  destruct (fetchRemote s key r v (Header_Get (Header cachedRsp) _etagKey)
              (Some cachedRsp) w1) as [[w' f]|] eqn:Hremote.
  - apply fetchRemote_effects in Hremote as (_ & _ & Hsent' & _).
    rewrite Hsent', Hsent. reflexivity.
  - unfold fetchRemote in Hremote. rewrite <- Hsent.
    destruct (Do (client s) (length (sent w1)) _) as [[rsp|] [err|]];
      try discriminate; [|reflexivity].
    destruct (StatusCode rsp =? StatusNotModified); [discriminate|].
    destruct (prepareForWriting _ _ _ _ _) as [[? ?] [?|?]]; discriminate.
Qed.

Lemma hit_returns lastModified w cachedRsp version :
  hostDir ∈ seenHosts w ->
  readAndParseGZIPFile key r w = Ok cachedRsp ->
  shouldUseCachedValue s cachedRsp lastModified = (version, true) ->
  CacheFetch s r lastModified w
  = Returns (w, mkFetched (Some cachedRsp) true NoOpStoreFunc None).
Proof.
  intros Hseen Hread Hpolicy.
  rewrite (CacheFetch_after_mkdir s r _ w w (ensureHostDir_seen s r w Hseen)).
  fold key. rewrite Hread, Hpolicy. reflexivity.
Qed.

(** Once an entry is a hit under a cutoff, every further fetch whose
    cutoff is not after that one is served the same stored response and
    leaves the world, so the transport and the files, as it is. *)
Theorem hits_are_stable lastModified w cachedRsp version cutoffs :
  hostDir ∈ seenHosts w ->
  readAndParseGZIPFile key r w = Ok cachedRsp ->
  shouldUseCachedValue s cachedRsp lastModified = (version, true) ->
  Forall (fun earlier => time.After earlier lastModified = false) cutoffs ->
  fetchEach s r cutoffs w
  = Returns (w, map (fun _ => (Some cachedRsp, true, None)) cutoffs).
Proof.
  intros Hseen Hread Hpolicy Hcutoffs.
  induction Hcutoffs as [|earlier cutoffs Hearlier _ IH]; [reflexivity|].
  cbn [fetchEach map]. unfold CacheFetchAndStore.
  rewrite (hit_returns earlier w cachedRsp version Hseen Hread
             (hit_relax s cachedRsp lastModified earlier version Hpolicy Hearlier)).
  cbn [f_err f_storeFunc f_rsp f_cached callStoreFunc]. rewrite IH. reflexivity.
Qed.

(** [Do] is [CacheFetchAndStore] with the zero cutoff, without the cached
    flag; on an entry that is a hit under the zero cutoff it returns the
    stored response and leaves the world as it is, so it never refreshes
    such an entry. *)
Theorem Do_serves_from_cache w :
  Store_Do s r w
  = match CacheFetchAndStore s r time.zero w with
    | Panics => Panics
    | Returns (w', (rsp, _, err)) => Returns (w', (rsp, err))
    end
  /\ forall cachedRsp version,
      hostDir ∈ seenHosts w ->
      readAndParseGZIPFile key r w = Ok cachedRsp ->
      shouldUseCachedValue s cachedRsp time.zero = (version, true) ->
      Store_Do s r w = Returns (w, (Some cachedRsp, None)).
Proof.
  split.
  - unfold Store_Do, CacheFetchAndStore.
    destruct (CacheFetch s r time.zero w) as [[w' f]|]; [|reflexivity].
    destruct (f_err f); [reflexivity|].
    destruct (callStoreFunc (f_storeFunc f) w') as [[err|] w'']; reflexivity.
  - intros cachedRsp version Hseen Hread Hpolicy. unfold Store_Do.
    rewrite (hit_returns time.zero w cachedRsp version Hseen Hread Hpolicy).
    reflexivity.
Qed.

Lemma callStoreFunc_effects f w e w' :
  callStoreFunc f w = (e, w') ->
  seenHosts w' = seenHosts w /\ sent w' = sent w /\ ticks w' = ticks w
  /\ (fs w' = fs w
      \/ exists k dump buffer,
          f = writeStoreFunc k dump
          /\ gzip_Writer_Write_Close dump = Ok buffer
          /\ os_WriteFile k buffer (fs w) = (e, fs w')).
Proof.
  destruct f as [|k dump]; cbn [callStoreFunc]; [intros [= <- <-]; auto|].
  destruct (gzip_Writer_Write_Close dump) as [buffer|err] eqn:Hgz;
    [|intros [= <- <-]; auto].
  destruct (os_WriteFile k buffer (fs w)) as [err fs'] eqn:Hw.
  intros [= <- <-]. cbn. repeat split. right. eauto 10.
Qed.

Lemma CacheFetch_storeFunc lastModified w w' f :
  CacheFetch s r lastModified w = Returns (w', f) ->
  f_storeFunc f = NoOpStoreFunc
  \/ exists rsp dump,
      f = mkFetched (Some rsp) false (writeStoreFunc key dump) None
      /\ httputil_DumpResponse rsp = Ok dump.
Proof.
  intros (e & w1 & _ & Hcases)%CacheFetch_cases.
  destruct Hcases as [(err & _ & _ & ->) | [(_ & c & v & _ & _ & _ & ->)
                                           | (_ & v & c & Hremote)]]; auto.
  apply fetchRemote_effects in Hremote as (_ & _ & _ & _ & Hf). exact Hf.
Qed.

(** A fetch and its commit touch one file, the one at the key of the
    request: on a file system where a write leaves the other files alone,
    every other key reads afterwards as it did before. *)
Theorem other_keys_untouched lastModified w w' x key' :
  FSKeepsFiles -> FSWritesOnlyKey ->
  key' <> key ->
  CacheFetchAndStore s r lastModified w = Returns (w', x) ->
  os_ReadFile key' (fs w') = os_ReadFile key' (fs w)
  /\ forall r', readAndParseGZIPFile key' r' w' = readAndParseGZIPFile key' r' w.
Proof.
  intros [_ Hmkdir] Hframe Hne Hrun.
  assert (os_ReadFile key' (fs w') = os_ReadFile key' (fs w)) as Hsame.
  { unfold CacheFetchAndStore in Hrun.
    destruct (CacheFetch s r lastModified w) as [[w1 f]|] eqn:Hfetch; [|discriminate].
    assert (os_ReadFile key' (fs w1) = os_ReadFile key' (fs w)) as Hfetched.
    { apply CacheFetch_cases in Hfetch as (e & w0 & Hdir & Hcases).
      destruct (ensureHostDir_effects _ _ _ Hdir) as (_ & _ & _ & Hfs0).
      assert (os_ReadFile key' (fs w0) = os_ReadFile key' (fs w)) as H0.
      { destruct Hfs0 as [-> | [_ ->]]; [reflexivity|apply Hmkdir]. }
      destruct Hcases as [(err & _ & -> & _) | [(_ & c & v & _ & _ & -> & _)
                                               | (_ & v & c & Hremote)]]; auto.
      apply fetchRemote_effects in Hremote as (-> & _). exact H0. }
    pose proof (CacheFetch_storeFunc _ _ _ _ Hfetch) as Hfunc.
    destruct (f_err f) as [err|]; [injection Hrun as <- _; exact Hfetched|].
    destruct (callStoreFunc (f_storeFunc f) w1) as [e w2] eqn:Hcall.
    assert (w' = w2) as -> by (destruct e; injection Hrun as <- _; reflexivity).
    apply callStoreFunc_effects in Hcall as (_ & _ & _ & Hfs2).
    destruct Hfs2 as [-> | (k & dump & buffer & Hf & _ & Hwrite)]; [exact Hfetched|].
    destruct Hfunc as [Hnoop | (rsp & dump' & -> & _)];
      [rewrite Hf in Hnoop; discriminate|].
    cbn [f_storeFunc] in Hf. injection Hf as <- <-.
    rewrite <- Hfetched. specialize (Hframe key key' buffer (fs w1)).
    rewrite Hwrite in Hframe. cbn [snd] in Hframe. apply Hframe. congruence. }
  split; [exact Hsame|].
  intros r'. unfold readAndParseGZIPFile, readGZIPFile. rewrite Hsame. reflexivity.
Qed.

(** After a fetch that was a miss and a commit that succeeded,
    [RawCacheData] returns the dump of the response the fetch handed back,
    on a file system that reads a written file back and a gzip that reads
    back what it wrote. *)
Theorem RawCacheData_after_commit lastModified w w1 w2 rsp k dump :
  FSKeepsFiles -> GzipReadsBack dump ->
  CacheFetch s r lastModified w
  = Returns (w1, mkFetched (Some rsp) false (writeStoreFunc k dump) None) ->
  callStoreFunc (writeStoreFunc k dump) w1 = (None, w2) ->
  RawCacheData s (URL r) w2 = Returns (Some dump, None)
  /\ httputil_DumpResponse rsp = Ok dump.
Proof.
  intros [Hkeeps _] (buffer & gzipReader & Hgz & Hopen & Hall & Hclose) Hfetch Hcommit.
  destruct (CacheFetch_write_inv s r _ _ _ _ _ _ Hfetch) as (-> & _ & Hdump & _).
  split; [|exact Hdump].
  cbn [callStoreFunc] in Hcommit. rewrite Hgz in Hcommit.
  destruct (os_WriteFile _ buffer (fs w1)) as [err fs'] eqn:Hwrite.
  injection Hcommit as -> <-.
  unfold RawCacheData, readGZIPFile. cbn [fs].
  rewrite (Hkeeps _ _ _ _ Hwrite), Hopen.
  rewrite bool_decide_eq_false_2 by (intros Hne; apply Hne; reflexivity).
  rewrite Hall, Hclose. reflexivity.
Qed.

(** When the commit fails, [CacheFetchAndStore] returns the error of the
    commit together with the response: the fetch was a miss, and its
    fresh response is handed back although it could not be stored. *)
Theorem commit_failure lastModified w w1 f err w2 :
  CacheFetch s r lastModified w = Returns (w1, f) ->
  f_err f = None ->
  callStoreFunc (f_storeFunc f) w1 = (Some err, w2) ->
  CacheFetchAndStore s r lastModified w = Returns (w2, (f_rsp f, false, Some err))
  /\ exists rsp dump,
      f_rsp f = Some rsp /\ f_cached f = false
      /\ httputil_DumpResponse rsp = Ok dump
      /\ sent w2 = sent w1.
Proof.
  intros Hfetch Herr Hcall.
  destruct (CacheFetch_storeFunc _ _ _ _ Hfetch) as [Hnoop | (rsp & dump & -> & Hdump)].
  - rewrite Hnoop in Hcall. discriminate.
  - destruct (callStoreFunc_effects _ _ _ _ Hcall) as (_ & Hsent & _).
    split; [|eauto 10].
    unfold CacheFetchAndStore. rewrite Hfetch. cbn [f_err f_storeFunc f_rsp f_cached] in *.
    rewrite Hcall. reflexivity.
Qed.

End MoreFetch.

(** ** These properties on concrete inputs *)

Section MoreRuns.

Import Mem.

Ltac int64_range :=
  unfold minInt64, maxInt64; change (2 ^ 63) with 9223372036854775808; lia.

Lemma Mem_FSWritesOnlyKey : FSWritesOnlyKey.
Proof.
  intros key key' data files Hne. cbn. rewrite lookup_insert_ne by exact Hne.
  reflexivity.
Qed.

Lemma Mem_GzipReadsBack (dump : MemBytes) : GzipReadsBack dump.
Proof. exists (Gzip dump), dump. repeat split. Qed.

Lemma NewStore_options_witness :
  fileSystemRoot
    (NewStore (dummyClient 200 "") "/tmp/store"
       [WithClient (dummyClient 500 ""); WithMaxErrorVersion 5]) = "/tmp/store"
  /\ maxErrorVersion
       (NewStore (dummyClient 200 "") "/tmp/store" [WithFetchVersionKey "V"]) = 3
  /\ maxErrorVersion
       (NewStore (dummyClient 200 "") "/tmp/store"
          ([WithClient (dummyClient 500 ""); WithMaxErrorVersion 5]
           ++ WithMaxErrorVersion 2 :: [WithFetchVersionKey "V"])) = 2.
Proof.
  apply NewStore_options.
  - constructor; [left; left; eexists; reflexivity|].
    constructor; [right; eexists; reflexivity|constructor].
  - constructor; [right; right; eexists; reflexivity|constructor].
Defined.


Lemma policy_hit_relax_witness :
  shouldUseCachedValue (testStore 200) (entry 200 "1700000000" "1") time.zero
  = (1, true).
Proof.
  apply (policy_hit_relax (testStore 200) (entry 200 "1700000000" "1")
           (time.Unix 1600000000) time.zero 1); vm_compute; reflexivity.
Defined.

Lemma stamp_read_back_witness :
  getWriteTimestamp (testStore 200)
    (stampMetadata (testStore 200) 1700000000 4 (mkResponse 200 ∅ 0 "hello, world"))
  = Ok (time.Unix 1700000000)
  /\ getVersion (testStore 200)
       (stampMetadata (testStore 200) 1700000000 4 (mkResponse 200 ∅ 0 "hello, world"))
     = Ok 4.
Proof.
  apply stamp_read_back; [apply Mem_keys_distinct|int64_range|int64_range].
Defined.

Lemma stamp_same_key_witness :
  let s := WithFetchTimestampKey "x-elucidate-version" (testStore 200) in
  getWriteTimestamp s (stampMetadata s 1700000000 4 (mkResponse 200 ∅ 0 "hello, world"))
  = Ok (time.Unix 4)
  /\ getVersion s (stampMetadata s 1700000000 4 (mkResponse 200 ∅ 0 "hello, world"))
     = Ok 4.
Proof.
  apply stamp_same_key; [vm_compute; reflexivity|int64_range].
Defined.

Lemma CacheFetch_writes_no_file_witness :
  exists w' f,
    CacheFetch (testStore 200) testRequest time.zero newWorld = Returns (w', f)
    /\ (sent w' = sent newWorld
        \/ exists etag, sent w' = withIfNoneMatch testRequest etag :: sent newWorld)
    /\ (ticks w' = ticks newWorld \/ ticks w' = S (ticks newWorld)).
Proof.
  eexists _, _. split; [reflexivity|].
  apply (CacheFetch_writes_no_file (testStore 200) testRequest time.zero newWorld
           _ _ eq_refl).
Defined.


Lemma mkdir_failure_witness :
  CacheFetch (H := MemReadOnly.platform) (testStore 200) testRequest time.zero
    MemReadOnly.newWorld
  = Returns (MemReadOnly.newWorld,
             mkFetched None false NoOpStoreFunc (Some MemReadOnly.readOnly))
  /\ CacheFetchAndStore (H := MemReadOnly.platform) (testStore 200) testRequest
       time.zero MemReadOnly.newWorld
     = Returns (MemReadOnly.newWorld, (None, false, Some MemReadOnly.readOnly)).
Proof.
  apply (mkdir_failure (H := MemReadOnly.platform) (testStore 200) testRequest
           time.zero MemReadOnly.newWorld MemReadOnly.readOnly ∅).
  - apply not_elem_of_empty.
  - reflexivity.
Defined.

Lemma not_modified_keeps_entry_witness :
  exists w',
    CacheFetchAndStore (testStore 304) testRequest (time.Unix 1700000500)
      (worldWith (Gzip (Wire (entry 200 "1700000000" "1"))))
    = Returns (w', (Some (entry 200 "1700000000" "1"), true, None))
    /\ readAndParseGZIPFile (fsKey "/tmp/store" (URL testRequest)) testRequest w'
       = Ok (entry 200 "1700000000" "1").
Proof.
  destruct (not_modified_keeps_entry (testStore 304) testRequest
              (time.Unix 1700000500) _ _ (entry 200 "1700000000" "1") 0
              (mkResponse 304 ∅ 0 "hello, world")
              (worldWith_seen 304 _) (worldWith_read 304 _))
    as (w' & Hrun & _ & _ & Hread & _); try reflexivity.
  exists w'. split; [exact Hrun|exact Hread].
Defined.

Lemma stale_entry_contacts_transport_witness :
  match CacheFetch (testStore 200) testRequest (time.Unix 1700000500)
          (worldWith (Gzip (Wire (entry 200 "1700000000" "1")))) with
  | Returns (w', f) =>
      sent w'
      = [withIfNoneMatch testRequest
           (Header_Get (Header (entry 200 "1700000000" "1")) _etagKey)]
  | Panics => False
  end.
Proof.
  pose proof (stale_entry_contacts_transport (testStore 200) testRequest
                (time.Unix 1700000500) _ _ (entry 200 "1700000000" "1")
                (time.Unix 1700000000)
                (worldWith_seen 200 _) (worldWith_read 200 _) eq_refl eq_refl)
    as Hsent.
  destruct (CacheFetch _ _ _ _) as [[w' f]|]; [exact Hsent|discriminate Hsent].
Defined.

Lemma hits_are_stable_witness :
  fetchEach (testStore 200) testRequest [time.zero; time.Unix 1600000000]
    (worldWith (Gzip (Wire (entry 200 "1700000000" "1"))))
  = Returns (worldWith (Gzip (Wire (entry 200 "1700000000" "1"))),
             [(Some (entry 200 "1700000000" "1"), true, None);
              (Some (entry 200 "1700000000" "1"), true, None)]).
Proof.
  apply (hits_are_stable (testStore 200) testRequest (time.Unix 1600000000) _
           (entry 200 "1700000000" "1") 1 [time.zero; time.Unix 1600000000]).
  - apply elem_of_singleton_2. reflexivity.
  - apply (worldWith_read 200).
  - vm_compute. reflexivity.
  - repeat constructor.
Defined.

Lemma Do_serves_from_cache_witness :
  Store_Do (testStore 200) testRequest
    (worldWith (Gzip (Wire (entry 200 "1700000000" "1"))))
  = Returns (worldWith (Gzip (Wire (entry 200 "1700000000" "1"))),
             (Some (entry 200 "1700000000" "1"), None)).
Proof.
  apply (proj2 (Do_serves_from_cache (testStore 200) testRequest _)
           (entry 200 "1700000000" "1") 1).
  - apply elem_of_singleton_2. reflexivity.
  - apply (worldWith_read 200).
  - vm_compute. reflexivity.
Defined.

Lemma other_keys_untouched_witness :
  exists w' x,
    CacheFetchAndStore (testStore 200) testRequest time.zero newWorld
    = Returns (w', x)
    /\ os_ReadFile "/tmp/store/example2.com/?.gz" (fs w')
       = os_ReadFile "/tmp/store/example2.com/?.gz" (fs newWorld).
Proof.
  eexists _, _. split; [reflexivity|].
  eapply (other_keys_untouched (testStore 200) testRequest time.zero newWorld _ _
            "/tmp/store/example2.com/?.gz" Mem_FSKeepsFiles Mem_FSWritesOnlyKey).
  - vm_compute. discriminate.
  - reflexivity.
Defined.

Lemma RawCacheData_after_commit_witness :
  exists w1 w2 rsp dump,
    CacheFetch (testStore 200) testRequest time.zero newWorld
    = Returns (w1, mkFetched (Some rsp) false
                     (writeStoreFunc (fsKey "/tmp/store" (URL testRequest)) dump) None)
    /\ callStoreFunc (writeStoreFunc (fsKey "/tmp/store" (URL testRequest)) dump) w1
       = (None, w2)
    /\ RawCacheData (testStore 200) (URL testRequest) w2 = Returns (Some dump, None)
    /\ httputil_DumpResponse rsp = Ok dump.
Proof.
  eexists _, _, _, _. split; [reflexivity|]. split; [reflexivity|].
  apply (RawCacheData_after_commit (testStore 200) testRequest time.zero newWorld
           _ _ _ _ _ Mem_FSKeepsFiles (Mem_GzipReadsBack _) eq_refl eq_refl).
Defined.

Lemma commit_failure_witness :
  exists w1 f w2,
    CacheFetch (H := MemReadOnly.platform) (testStore 200) testRequest time.zero
      MemReadOnly.seenWorld = Returns (w1, f)
    /\ CacheFetchAndStore (H := MemReadOnly.platform) (testStore 200) testRequest
         time.zero MemReadOnly.seenWorld
       = Returns (w2, (f_rsp f, false, Some MemReadOnly.readOnly)).
Proof.
  eexists _, _, _. split; [reflexivity|].
  apply (commit_failure (H := MemReadOnly.platform) (testStore 200) testRequest
           time.zero MemReadOnly.seenWorld _ _ MemReadOnly.readOnly _ eq_refl);
    reflexivity.
Defined.

End MoreRuns.
